(** * splitbill: the allocation and settlement engine of [src/App.tsx]

    A shallow embedding of [calculatePersonTotals] and
    [calculateSettlements], followed by the properties of the
    specification that concern them (C1 to C10), and of the handlers
    that set the state the two functions read, with their own properties
    (X1 to X19).

    Numbers.  The source computes on JavaScript numbers.  They are
    modelled as canonical rationals [Qc] with exact arithmetic, so [NaN],
    the infinities and rounding are outside the model.  Every division
    performed by the two functions has a non-zero divisor in this model
    ([item.sharedBy.length > 0] guards the first one, [bill.subtotal || 1]
    the second), hence the value Rocq gives to [x / 0] is never used.

    Objects used as dictionaries ([Record<string, ...>]) are finite maps
    with string keys: the ids are made by [generateId], at most seven
    characters among digits and lower-case letters, none of which is the
    name of a property that an object inherits.  Arrays are lists,
    indexed and updated in place with list lookup and insert. *)

From Stdlib Require Import QArith Qcanon Lqa.
From stdpp Require Import base option numbers list strings gmap.

Local Open Scope Qc_scope.

(** ** Numbers *)

(** The tolerance [0.01] of the source. *)
Definition cent : Qc := Q2Qc (1 # 100).

(** [n] as a number, for [array.length] used in arithmetic. *)
Definition of_nat (n : nat) : Qc := Q2Qc (inject_Z (Z.of_nat n)).

(** [x < y] and [x > y] as the source's boolean tests. *)
Definition ltb (x y : Qc) : bool := bool_decide (x < y).
Definition gtb (x y : Qc) : bool := bool_decide (y < x).

(** [Math.abs] and [Math.min]. *)
Definition Math_abs (x : Qc) : Qc := if ltb x 0 then - x else x.
Definition Math_min (x y : Qc) : Qc := if ltb y x then y else x.

(** [x || 1] on numbers: [0] is the only falsy number of the model. *)
Definition or_one (x : Qc) : Qc := if bool_decide (x = 0) then 1 else x.

(** [reduce((sum, v) => sum + v, 0)] *)
Definition sum (l : list Qc) : Qc := foldl Qcplus 0 l.

(** ** Data model (the [type] declarations of the source) *)

Module Person.
Record t := mk { id : string; name : string; color : string }.
End Person.

Module Item.
Record t := mk {
  id : string;
  name : string;
  price : Qc;
  qty : Qc;
  sharedBy : list string   (* array of Person ids *)
}.
End Item.

Module Payment.
Record t := mk { id : string; personId : string; amount : Qc; note : string }.
End Payment.

Module ReceiptData.
Record t := mk {
  id : string;
  name : string;
  items : list Item.t;
  subtotal : Qc;
  tax : Qc;
  serviceCharge : Qc;
  total : Qc
}.
End ReceiptData.

(** The values of the [personTotals] dictionary. *)
Module Stats.
Record t := mk {
  itemTotal : Qc;
  taxShare : Qc;
  serviceShare : Qc;
  finalTotal : Qc
}.
End Stats.

(** The objects returned by [calculatePersonTotals]:
    [{ ...person, ...stats, amountPaid, balance }]. *)
Module PersonTotals.
Record t := mk {
  id : string;
  name : string;
  color : string;
  itemTotal : Qc;
  taxShare : Qc;
  serviceShare : Qc;
  finalTotal : Qc;
  amountPaid : Qc;
  balance : Qc
}.
(** [{ ...t, balance: b }] *)
Definition with_balance (x : t) (b : Qc) : t :=
  mk (id x) (name x) (color x) (itemTotal x) (taxShare x) (serviceShare x)
     (finalTotal x) (amountPaid x) b.
End PersonTotals.

Module Settlement.
Record t := mk { from : string; to : string; amount : Qc }.
End Settlement.

#[global] Instance Person_eq_dec : EqDecision Person.t.
Proof. solve_decision. Defined.
#[global] Instance Item_eq_dec : EqDecision Item.t.
Proof. solve_decision. Defined.
#[global] Instance Payment_eq_dec : EqDecision Payment.t.
Proof. solve_decision. Defined.
#[global] Instance ReceiptData_eq_dec : EqDecision ReceiptData.t.
Proof. solve_decision. Defined.
#[global] Instance Settlement_eq_dec : EqDecision Settlement.t.
Proof. solve_decision. Defined.
#[global] Instance Stats_eq_dec : EqDecision Stats.t.
Proof. solve_decision. Defined.
#[global] Instance PersonTotals_eq_dec : EqDecision PersonTotals.t.
Proof. solve_decision. Defined.

(** ** [calculatePersonTotals] *)

(** A read of an object property that may be [undefined] is an [option];
    [None] propagates, standing for the [TypeError] (or the [NaN]) the
    source would produce.  It never happens: the allocator is total. *)
Definition foldM {A B} (f : B -> A -> option B) (l : list A) (b : B) : option B :=
  foldl (fun acc x => acc ≫= fun b => f b x) (Some b) l.

(** [people.forEach(p => { personTotals[p.id] = { itemTotal: 0, ... } })] *)
Definition zeroStats : Stats.t := Stats.mk 0 0 0 0.
Definition initPersonTotals (people : list Person.t) : gmap string Stats.t :=
  foldl (fun m p => <[Person.id p := zeroStats]> m) ∅ people.

(** [people.forEach(p => billPersonItemTotals[p.id] = 0)] *)
Definition initBillPersonItemTotals (people : list Person.t) : gmap string Qc :=
  foldl (fun m p => <[Person.id p := 0]> m) ∅ people.

(** The body of [item.sharedBy.forEach]:
    [if (billPersonItemTotals[personId] !== undefined)
       billPersonItemTotals[personId] += splitPrice]. *)
Definition addShare (splitPrice : Qc) (m : gmap string Qc) (personId : string)
  : gmap string Qc :=
  match m !! personId with
  | Some v => <[personId := v + splitPrice]> m
  | None => m
  end.

(** The body of [bill.items.forEach], on the pair
    ([billPersonItemTotals], [billAssignedSubtotal]). *)
Definition itemStep (st : gmap string Qc * Qc) (item : Item.t) : gmap string Qc * Qc :=
  if bool_decide (0 < length (Item.sharedBy item))%nat then
    let splitPrice := Item.price item / of_nat (length (Item.sharedBy item)) in
    (foldl (addShare splitPrice) st.1 (Item.sharedBy item), st.2 + Item.price item)
  else st.

(** The two locals after the item loop of one bill. *)
Definition billItems (people : list Person.t) (bill : ReceiptData.t)
  : gmap string Qc * Qc :=
  foldl itemStep (initBillPersonItemTotals people, 0) (ReceiptData.items bill).

Definition billPersonItemTotals people bill : gmap string Qc := (billItems people bill).1.
Definition billAssignedSubtotal people bill : Qc := (billItems people bill).2.

(** [billAssignedSubtotal > 0 ? billAssignedSubtotal : (bill.subtotal || 1)] *)
Definition baseForProportion (people : list Person.t) (bill : ReceiptData.t) : Qc :=
  if gtb (billAssignedSubtotal people bill) 0
  then billAssignedSubtotal people bill
  else or_one (ReceiptData.subtotal bill).

(** The constants [itemTotal], [taxShare], [serviceShare] of one
    iteration of the second [people.forEach] of a bill. *)
Definition personShares (people : list Person.t) (bill : ReceiptData.t)
    (person : Person.t) : option (Qc * Qc * Qc) :=
  itemTotal ← billPersonItemTotals people bill !! Person.id person;
  let proportion := itemTotal / baseForProportion people bill in
  let taxShare := ReceiptData.tax bill * proportion in
  let serviceShare := ReceiptData.serviceCharge bill * proportion in
  Some (itemTotal, taxShare, serviceShare).

(** The four [+=] on [personTotals[person.id]]. *)
Definition personStep (people : list Person.t) (bill : ReceiptData.t)
    (personTotals : gmap string Stats.t) (person : Person.t)
  : option (gmap string Stats.t) :=
  '(itemTotal, taxShare, serviceShare) ← personShares people bill person;
  s ← personTotals !! Person.id person;
  Some (<[Person.id person :=
            Stats.mk (Stats.itemTotal s + itemTotal)
                     (Stats.taxShare s + taxShare)
                     (Stats.serviceShare s + serviceShare)
                     (Stats.finalTotal s + (itemTotal + taxShare + serviceShare))]>
          personTotals).

(** The body of [bills.forEach]. *)
Definition billStep (people : list Person.t) (personTotals : gmap string Stats.t)
    (bill : ReceiptData.t) : option (gmap string Stats.t) :=
  foldM (personStep people bill) people personTotals.

(** [payments.filter(p => p.personId === person.id)
            .reduce((sum, p) => sum + p.amount, 0)] *)
Definition amountPaidOf (payments : list Payment.t) (person : Person.t) : Qc :=
  sum (Payment.amount <$>
         filter (fun p => Payment.personId p = Person.id person) payments).

(** The callback of the final [people.map]. *)
Definition mkTotals (payments : list Payment.t) (personTotals : gmap string Stats.t)
    (person : Person.t) : option PersonTotals.t :=
  stats ← personTotals !! Person.id person;
  let amountPaid := amountPaidOf payments person in
  Some (PersonTotals.mk (Person.id person) (Person.name person) (Person.color person)
          (Stats.itemTotal stats) (Stats.taxShare stats) (Stats.serviceShare stats)
          (Stats.finalTotal stats) amountPaid (amountPaid - Stats.finalTotal stats)).

Definition calculatePersonTotals (people : list Person.t) (bills : list ReceiptData.t)
    (payments : list Payment.t) : option (list PersonTotals.t) :=
  personTotals ← foldM (billStep people) bills (initPersonTotals people);
  mapM (mkTotals payments personTotals) people.

(** ** [calculateSettlements] *)

(** [totals.filter(t => t.balance < -0.01)
           .map(t => ({ ...t, balance: Math.abs(t.balance) }))] *)
Definition debtorsOf (totals : list PersonTotals.t) : list PersonTotals.t :=
  (fun t => PersonTotals.with_balance t (Math_abs (PersonTotals.balance t))) <$>
    filter (fun t => PersonTotals.balance t < - cent) totals.

(** [totals.filter(t => t.balance > 0.01).map(t => ({ ...t }))]: the
    copies are fresh objects, so that the updates of the loop never reach
    [totals]; as values they are the filtered entries. *)
Definition creditorsOf (totals : list PersonTotals.t) : list PersonTotals.t :=
  filter (fun t => cent < PersonTotals.balance t) totals.

(** The variables of the [while] loop. *)
Module Loop.
Record t := mk {
  debtors : list PersonTotals.t;
  creditors : list PersonTotals.t;
  d : nat;
  c : nat;
  settlements : list Settlement.t
}.
End Loop.

(** [d < debtors.length && c < creditors.length] *)
Definition guard (s : Loop.t) : bool :=
  bool_decide (Loop.d s < length (Loop.debtors s))%nat &&
  bool_decide (Loop.c s < length (Loop.creditors s))%nat.

(** One iteration of the loop.  An index out of range reads [undefined],
    whose [.balance] throws: [None]. *)
Definition loopBody (s : Loop.t) : option Loop.t :=
  dt ← Loop.debtors s !! Loop.d s;
  ct ← Loop.creditors s !! Loop.c s;
  let amount := Math_min (PersonTotals.balance dt) (PersonTotals.balance ct) in
  let settlements :=
    Loop.settlements s ++
      [Settlement.mk (PersonTotals.name dt) (PersonTotals.name ct) amount] in
  let debtors :=
    <[Loop.d s := PersonTotals.with_balance dt (PersonTotals.balance dt - amount)]>
      (Loop.debtors s) in
  let creditors :=
    <[Loop.c s := PersonTotals.with_balance ct (PersonTotals.balance ct - amount)]>
      (Loop.creditors s) in
  dt' ← debtors !! Loop.d s;
  let d := if ltb (PersonTotals.balance dt') cent then S (Loop.d s) else Loop.d s in
  ct' ← creditors !! Loop.c s;
  let c := if ltb (PersonTotals.balance ct') cent then S (Loop.c s) else Loop.c s in
  Some (Loop.mk debtors creditors d c settlements).

(** The [while] loop, with a bound on the number of iterations: [None]
    when the bound is reached with the guard still true. *)
Fixpoint while (fuel : nat) (s : Loop.t) : option Loop.t :=
  if guard s then
    match fuel with
    | O => None
    | S fuel => loopBody s ≫= while fuel
    end
  else Some s.

Definition initLoop (totals : list PersonTotals.t) : Loop.t :=
  Loop.mk (debtorsOf totals) (creditorsOf totals) 0 0 [].

(** The final state of the loop; every iteration moves a cursor, so
    [debtors.length + creditors.length] iterations are enough. *)
Definition runSettlements (totals : list PersonTotals.t) : option Loop.t :=
  while (length (debtorsOf totals) + length (creditorsOf totals)) (initLoop totals).

Definition calculateSettlements (totals : list PersonTotals.t)
  : option (list Settlement.t) :=
  Loop.settlements <$> runSettlements totals.

(** ** Words of the specification *)

(** The ids of the people list. *)
Definition ids (people : list Person.t) : list string := Person.id <$> people.

(** "Assigned subtotal: sum of item prices that have at least one
    assignee". *)
Definition assignedSubtotal (bill : ReceiptData.t) : Qc :=
  sum (Item.price <$> filter (fun i => Item.sharedBy i ≠ []) (ReceiptData.items bill)).

(** Every id of a [sharedBy] of the bill is the id of a person. *)
Definition knownIds (people : list Person.t) (bill : ReceiptData.t) : Prop :=
  Forall (fun i => Forall (fun x => x ∈ ids people) (Item.sharedBy i))
         (ReceiptData.items bill).

(** "If [sharedBy] has N members, each member receives [price / N]"; the
    others, and everybody when [sharedBy] is empty, receive nothing. *)
Definition itemShare (personId : string) (item : Item.t) : Qc :=
  if bool_decide (personId ∈ Item.sharedBy item)
  then Item.price item / of_nat (length (Item.sharedBy item))
  else 0.

(** What the people of the list hold together in a per-bill dictionary. *)
Definition heldBy (people : list Person.t) (m : gmap string Qc) : Qc :=
  sum ((fun p => default 0 (m !! Person.id p)) <$> people).

(** [{ ...item, qty: q }] *)
Definition with_qty (item : Item.t) (q : Qc) : Item.t :=
  Item.mk (Item.id item) (Item.name item) (Item.price item) q (Item.sharedBy item).




(** ** The reference sweep of the specification (section 4.2)

    Debtors and creditors are kept in the order of the people list, as
    (name, remaining) entries.  Each list has a cursor: the entries the
    cursor has passed, and the entries from the cursor on, the current
    one first. *)
Module Sweep.
Record t := mk {
  passedD : list (string * Qc);
  restD : list (string * Qc);
  passedC : list (string * Qc);
  restC : list (string * Qc);
  out : list Settlement.t
}.
End Sweep.








(** ** Invariants *)

(** [k] is in no [sharedBy] of the session. *)
Definition unshared (bills : list ReceiptData.t) (k : string) : Prop :=
  forall bill item,
    bill ∈ bills -> item ∈ ReceiptData.items bill -> k ∉ Item.sharedBy item.

(** The invariant of the [personTotals] dictionary: it has a key for
    every person, every value has its [finalTotal] equal to the sum of
    its three parts, and the value of an unshared id is all zeros. *)
Definition statsInv (people : list Person.t) (bills : list ReceiptData.t)
    (m : gmap string Stats.t) : Prop :=
  (forall k, k ∈ ids people -> is_Some (m !! k)) /\
  (forall k s, m !! k = Some s ->
     Stats.finalTotal s =
     Stats.itemTotal s + Stats.taxShare s + Stats.serviceShare s) /\
  (forall k, unshared bills k -> k ∈ ids people -> m !! k = Some zeroStats).

(** What the entries of a list hold together, and under one name. *)
Definition total (l : list (string * Qc)) : Qc := sum (snd <$> l).




(** ** Example data *)

Definition num (a : Z) (b : positive) : Qc := Q2Qc (a # b).

Definition alice : Person.t := Person.mk "a" "Alice" "bg-red-500".
Definition bob : Person.t := Person.mk "b" "Bob" "bg-blue-500".
Definition carol : Person.t := Person.mk "c" "Carol" "bg-green-500".

(** One item of 200 shared by Alice and Bob, tax 20, service 10. *)
Definition pizza : Item.t := Item.mk "i1" "Pizza" (num 200 1) (num 2 1) ["a"; "b"].
Definition water : Item.t := Item.mk "i0" "Water" (num 7 1) 1 [].
Definition dinner : ReceiptData.t :=
  ReceiptData.mk "r1" "Dinner" [pizza] (num 200 1) (num 20 1) (num 10 1) (num 230 1).

(** Only an unassigned item; the stored subtotal is 7. *)
Definition tea : ReceiptData.t :=
  ReceiptData.mk "r0" "Tea" [water] (num 7 1) 1 0 (num 8 1).

Definition dinnerPayments : list Payment.t :=
  [Payment.mk "p1" "a" (num 230 1) "card"].

(** An item of 10 for Alice and a discount of 10 given to Bob: the
    assigned subtotal, and the subtotal, are 0; tax 5. *)
Definition discounted : ReceiptData.t :=
  ReceiptData.mk "r2" "Lunch"
    [Item.mk "i1" "Soup" (num 10 1) 1 ["a"];
     Item.mk "i2" "Voucher" (num (-10) 1) 1 ["b"]]
    0 (num 5 1) 0 (num 5 1).

(** An item of 10 shared by Alice and an id that no person has. *)
Definition ghostBill : ReceiptData.t :=
  ReceiptData.mk "r3" "Snack"
    [Item.mk "i1" "Fries" (num 10 1) 1 ["a"; "ghost"]]
    (num 10 1) 0 0 (num 10 1).

(** A totals record of which only the name and the balance matter. *)
Definition owes (n : string) (b : Qc) : PersonTotals.t :=
  PersonTotals.mk n n "" 0 0 0 0 0 b.

(** Ann owes 30, Ben owes 20, Cat is owed 50. *)
Definition trip : list PersonTotals.t :=
  [owes "Ann" (num (-30) 1); owes "Ben" (num (-20) 1); owes "Cat" (num 50 1)].



(** ** The handlers of the session state

    The state of [App] is the lists [people], [bills] and [payments] and
    [currentBillId]; a handler reads the state of the render it closes
    over and sets a new one.  A handler is modelled as the function from
    the state it reads to the state it sets.  An id drawn by
    [generateId] and a number parsed from an input field are given as
    arguments. *)

(** [{ ...item, sharedBy: l }], [{ ...bill, items: l }] *)
Definition with_sharedBy (item : Item.t) (l : list string) : Item.t :=
  Item.mk (Item.id item) (Item.name item) (Item.price item) (Item.qty item) l.
Definition with_items (bill : ReceiptData.t) (l : list Item.t) : ReceiptData.t :=
  ReceiptData.mk (ReceiptData.id bill) (ReceiptData.name bill) l
    (ReceiptData.subtotal bill) (ReceiptData.tax bill)
    (ReceiptData.serviceCharge bill) (ReceiptData.total bill).

(** [!currentBillId]: [null] and the empty string are falsy. *)
Definition noCurrentBill (currentBillId : option string) : bool :=
  match currentBillId with
  | None => true
  | Some c => bool_decide (c = "")
  end.

(** [b.id === currentBillId] *)
Definition isCurrent (currentBillId : option string) (bill : ReceiptData.t) : bool :=
  bool_decide (Some (ReceiptData.id bill) = currentBillId).


Definition COLORS : list string :=
  ["bg-red-500"; "bg-blue-500"; "bg-green-500"; "bg-yellow-500";
   "bg-purple-500"; "bg-pink-500"; "bg-indigo-500"; "bg-teal-500";
   "bg-orange-500"; "bg-cyan-500"].

(** [addPerson]: [trimmed] is [newPersonName.trim()], [newId] the id
    drawn.  An index out of [COLORS] would read [undefined], which is no
    colour: [None]. *)
Definition addPerson (people : list Person.t) (newId trimmed : string)
  : option (list Person.t) :=
  if bool_decide (trimmed = "") then Some people
  else
    color ← COLORS !! (length people mod length COLORS)%nat;
    Some (people ++ [Person.mk newId trimmed color]).

(** [removePerson]: the new [people] and the new [bills]. *)
Definition removePerson (people : list Person.t) (bills : list ReceiptData.t)
    (id : string) : list Person.t * list ReceiptData.t :=
  (filter (fun p => Person.id p ≠ id) people,
   (fun bill =>
      with_items bill
        ((fun item =>
            with_sharedBy item
              (filter (fun personId => personId ≠ id) (Item.sharedBy item)))
           <$> ReceiptData.items bill))
     <$> bills).

(** The callback of [bill.items.map] in [toggleItemShare]. *)
Definition toggleShare (itemId personId : string) (item : Item.t) : Item.t :=
  if bool_decide (Item.id item = itemId) then
    let isShared := bool_decide (personId ∈ Item.sharedBy item) in
    with_sharedBy item
      (if isShared
       then filter (fun id => id ≠ personId) (Item.sharedBy item)
       else Item.sharedBy item ++ [personId])
  else item.

Definition toggleItemShare (currentBillId : option string)
    (bills : list ReceiptData.t) (itemId personId : string) : list ReceiptData.t :=
  if noCurrentBill currentBillId then bills
  else
    (fun bill =>
       if isCurrent currentBillId bill
       then with_items bill (toggleShare itemId personId <$> ReceiptData.items bill)
       else bill)
      <$> bills.

(** The callback of [bill.items.map] in [selectAllPeopleForItem]. *)
Definition selectAll (itemId : string) (allPersonIds : list string) (item : Item.t)
  : Item.t :=
  if bool_decide (Item.id item = itemId) then
    let isAllSelected :=
      bool_decide (length (Item.sharedBy item) = length allPersonIds) in
    with_sharedBy item (if isAllSelected then [] else allPersonIds)
  else item.

Definition selectAllPeopleForItem (currentBillId : option string)
    (people : list Person.t) (bills : list ReceiptData.t) (itemId : string)
  : list ReceiptData.t :=
  if noCurrentBill currentBillId then bills
  else
    let allPersonIds := Person.id <$> people in
    (fun bill =>
       if isCurrent currentBillId bill
       then with_items bill (selectAll itemId allPersonIds <$> ReceiptData.items bill)
       else bill)
      <$> bills.

(** The button "Tambah Item Manual": a new item at the end of the
    current bill. *)
Definition addItem (currentBillId : option string) (bills : list ReceiptData.t)
    (newId : string) : list ReceiptData.t :=
  let newItem := Item.mk newId "Item Baru" 0 1 [] in
  (fun b => if isCurrent currentBillId b
            then with_items b (ReceiptData.items b ++ [newItem]) else b)
    <$> bills.

(** The input fields of an item of the current bill and of the name of
    the current bill, and the delete button of an item.  [val] is the
    number read, [parseInt(...) || 0] or [parseFloat(...) || 0]. *)
Definition setItemQty (currentBillId : option string) (bills : list ReceiptData.t)
    (itemId : string) (val : Qc) : list ReceiptData.t :=
  (fun b =>
     if isCurrent currentBillId b
     then with_items b
            ((fun i => if bool_decide (Item.id i = itemId)
                       then Item.mk (Item.id i) (Item.name i) (Item.price i) val
                                    (Item.sharedBy i)
                       else i) <$> ReceiptData.items b)
     else b)
    <$> bills.

Definition setItemName (currentBillId : option string) (bills : list ReceiptData.t)
    (itemId value : string) : list ReceiptData.t :=
  (fun b =>
     if isCurrent currentBillId b
     then with_items b
            ((fun i => if bool_decide (Item.id i = itemId)
                       then Item.mk (Item.id i) value (Item.price i) (Item.qty i)
                                    (Item.sharedBy i)
                       else i) <$> ReceiptData.items b)
     else b)
    <$> bills.

Definition setItemPrice (currentBillId : option string) (bills : list ReceiptData.t)
    (itemId : string) (val : Qc) : list ReceiptData.t :=
  (fun b =>
     if isCurrent currentBillId b
     then with_items b
            ((fun i => if bool_decide (Item.id i = itemId)
                       then Item.mk (Item.id i) (Item.name i) val (Item.qty i)
                                    (Item.sharedBy i)
                       else i) <$> ReceiptData.items b)
     else b)
    <$> bills.

Definition setBillName (currentBillId : option string) (bills : list ReceiptData.t)
    (value : string) : list ReceiptData.t :=
  if noCurrentBill currentBillId then bills
  else
    (fun b =>
       if isCurrent currentBillId b
       then ReceiptData.mk (ReceiptData.id b) value (ReceiptData.items b)
              (ReceiptData.subtotal b) (ReceiptData.tax b)
              (ReceiptData.serviceCharge b) (ReceiptData.total b)
       else b)
      <$> bills.

Definition removeItem (currentBillId : option string) (bills : list ReceiptData.t)
    (itemId : string) : list ReceiptData.t :=
  (fun b =>
     if isCurrent currentBillId b
     then with_items b (filter (fun i => Item.id i ≠ itemId) (ReceiptData.items b))
     else b)
    <$> bills.

(** The button "Input Manual": an empty bill at the end of [bills]. *)
Definition addManualBill (bills : list ReceiptData.t) (billId : string)
  : list ReceiptData.t :=
  bills ++ [ReceiptData.mk billId "Nota Baru" [] 0 0 0 0].

(** What [processReceipt] reads in the answer of the extraction service
    (its [responseSchema]): [qty] is not required. *)
Module ParsedItem.
Record t := mk { name : string; qty : option Qc; price : Qc }.
End ParsedItem.

Module ParsedData.
Record t := mk {
  restaurantName : string;
  items : list ParsedItem.t;
  subtotal : Qc;
  tax : Qc;
  serviceCharge : Qc;
  total : Qc
}.
End ParsedData.

(** [item.qty || 1] *)
Definition qty_or_one (q : option Qc) : Qc :=
  match q with
  | Some q => or_one q
  | None => 1
  end.

(** [parsedData.items.map(...)] and [newBill] of [processReceipt];
    [itemId n] is the id drawn for the item of index [n]. *)
Definition itemsWithIds (itemId : nat -> string) (items : list ParsedItem.t)
  : list Item.t :=
  imap
    (fun n item =>
       Item.mk (itemId n) (ParsedItem.name item) (ParsedItem.price item)
               (qty_or_one (ParsedItem.qty item)) [])
    items.

Definition newBill (billId : string) (itemId : nat -> string)
    (parsedData : ParsedData.t) : ReceiptData.t :=
  ReceiptData.mk billId
    (if bool_decide (ParsedData.restaurantName parsedData = "")
     then "Nota Baru" else ParsedData.restaurantName parsedData)
    (itemsWithIds itemId (ParsedData.items parsedData))
    (ParsedData.subtotal parsedData)       (* [x || 0] is [x] on numbers *)
    (ParsedData.tax parsedData)
    (ParsedData.serviceCharge parsedData)
    (ParsedData.total parsedData).






(** [renderSummary] *)
Definition unassignedItemsCount (bills : list ReceiptData.t) : nat :=
  foldl (fun sum b =>
           (sum + length (filter (fun i => length (Item.sharedBy i) = 0%nat)
                                 (ReceiptData.items b)))%nat)
        0%nat bills.

(** [bills.find(b => b.items.some(i => i.sharedBy.length === 0))] *)
Definition billWithUnassigned (bills : list ReceiptData.t) : option ReceiptData.t :=
  snd <$> list_find
            (fun b => Exists (fun i => length (Item.sharedBy i) = 0%nat)
                             (ReceiptData.items b))
            bills.

(** ** Well-formed assignments

    Person ids are unique, every [sharedBy] is duplicate free and holds
    ids of people only. *)
Definition assignmentsOk (people : list Person.t) (bills : list ReceiptData.t) : Prop :=
  NoDup (ids people) /\
  Forall (fun bill =>
            knownIds people bill /\
            Forall (fun i => NoDup (Item.sharedBy i)) (ReceiptData.items bill))
         bills.

(** An item whose [sharedBy] is duplicate free and holds ids of people. *)
Definition itemOk (people : list Person.t) (i : Item.t) : Prop :=
  Forall (fun x => x ∈ ids people) (Item.sharedBy i) /\ NoDup (Item.sharedBy i).

(** The shares of a person for a bill, [0] where the source would read
    [undefined]. *)
Definition shareOf (people : list Person.t) (bill : ReceiptData.t) (person : Person.t)
  : Qc * Qc * Qc :=
  default (0, 0, 0) (personShares people bill person).

(** Two items that differ at most in [sharedBy], and two bills that
    differ at most in the [sharedBy] of their items, related by [R]. *)
Definition sameItemBut (R : Item.t -> Item.t -> Prop) (i i' : Item.t) : Prop :=
  Item.id i' = Item.id i /\ Item.name i' = Item.name i /\
  Item.price i' = Item.price i /\ Item.qty i' = Item.qty i /\ R i i'.
Definition sameBillBut (R : Item.t -> Item.t -> Prop) (b b' : ReceiptData.t) : Prop :=
  ReceiptData.id b' = ReceiptData.id b /\ ReceiptData.name b' = ReceiptData.name b /\
  ReceiptData.subtotal b' = ReceiptData.subtotal b /\
  ReceiptData.tax b' = ReceiptData.tax b /\
  ReceiptData.serviceCharge b' = ReceiptData.serviceCharge b /\
  ReceiptData.total b' = ReceiptData.total b /\
  Forall2 (sameItemBut R) (ReceiptData.items b) (ReceiptData.items b').

(** Two bills in which the allocator reads the same: the same subtotal,
    tax and service charge, and items with the same prices and, up to
    their order, the same duplicate free [sharedBy]. *)
Definition allocEquiv (b b' : ReceiptData.t) : Prop :=
  ReceiptData.subtotal b' = ReceiptData.subtotal b /\
  ReceiptData.tax b' = ReceiptData.tax b /\
  ReceiptData.serviceCharge b' = ReceiptData.serviceCharge b /\
  Forall2 (fun i i' =>
             Item.price i' = Item.price i /\
             NoDup (Item.sharedBy i) /\
             Item.sharedBy i' ≡ₚ Item.sharedBy i)
          (ReceiptData.items b) (ReceiptData.items b').

(** ** More example data *)

(** The same dinner, scanned again: other ids and names, another [qty]
    and [total], Bob before Alice. *)
Definition dinnerAgain : ReceiptData.t :=
  ReceiptData.mk "r9" "Makan malam"
    [Item.mk "i9" "Pizza besar" (num 200 1) 1 ["b"; "a"]]
    (num 200 1) (num 20 1) (num 10 1) 0.


(** What a person is charged for a bill: item total, tax share and
    service share together. *)
Definition chargeOf (people : list Person.t) (bill : ReceiptData.t) (person : Person.t)
  : Qc :=
  (shareOf people bill person).1.1 + (shareOf people bill person).1.2
    + (shareOf people bill person).2.

(** The four [+=] of one iteration on a value of [personTotals]. *)
Definition addStats (s : Stats.t) (sh : Qc * Qc * Qc) : Stats.t :=
  Stats.mk (Stats.itemTotal s + sh.1.1) (Stats.taxShare s + sh.1.2)
           (Stats.serviceShare s + sh.2)
           (Stats.finalTotal s + (sh.1.1 + sh.1.2 + sh.2)).


(** * Proofs *)

(** ** Arithmetic *)



Lemma foldl_Qcplus a l : foldl Qcplus a l = a + sum l.
Proof.
  unfold sum. revert a. induction l as [|x l IH]; intros a; simpl.
  - ring.
  - rewrite (IH (a + x)), (IH (0 + x)). ring.
Qed.

Lemma sum_nil : sum [] = 0.
Proof. reflexivity. Qed.

Lemma sum_cons x l : sum (x :: l) = x + sum l.
Proof. unfold sum at 1. simpl. rewrite foldl_Qcplus. ring. Qed.












(** ** The dictionaries of [calculatePersonTotals] *)

Lemma init_fold_lookup {V} (v : V) people (m0 : gmap string V) k :
  foldl (fun m p => <[Person.id p := v]> m) m0 people !! k =
  if bool_decide (k ∈ ids people) then Some v else m0 !! k.
Proof.
  revert m0. induction people as [|p ps IH]; intros m0.
  - rewrite bool_decide_eq_false_2; [done|]. apply not_elem_of_nil.
  - cbn [foldl]. rewrite IH. unfold ids. rewrite fmap_cons.
    destruct (decide (k = Person.id p)) as [->|Hne].
    + rewrite lookup_insert_eq.
      rewrite (bool_decide_eq_true_2 (_ ∈ _ :: _)) by (apply elem_of_cons; by left).
      by destruct (bool_decide _).
    + rewrite lookup_insert_ne by done.
      assert (k ∈ Person.id p :: (Person.id <$> ps) <-> k ∈ Person.id <$> ps)
        as Hiff by (rewrite elem_of_cons; tauto).
      by rewrite (bool_decide_ext _ _ Hiff).
Qed.

Lemma initBill_lookup people k :
  initBillPersonItemTotals people !! k =
  if bool_decide (k ∈ ids people) then Some 0 else None.
Proof. unfold initBillPersonItemTotals. by rewrite init_fold_lookup, lookup_empty. Qed.

Lemma initPersonTotals_lookup people k :
  initPersonTotals people !! k =
  if bool_decide (k ∈ ids people) then Some zeroStats else None.
Proof. unfold initPersonTotals. by rewrite init_fold_lookup, lookup_empty. Qed.

Lemma addShare_lookup s (m : gmap string Qc) x k :
  addShare s m x !! k =
  if bool_decide (k = x) then (fun v => v + s) <$> m !! k else m !! k.
Proof.
  unfold addShare. case_bool_decide as E.
  - subst k. destruct (m !! x) as [v|] eqn:Hx; simpl.
    + by rewrite lookup_insert_eq.
    + by rewrite Hx.
  - destruct (m !! x) as [v|] eqn:Hx; [|done].
    by rewrite lookup_insert_ne.
Qed.

Lemma addShare_unknown s (m : gmap string Qc) x :
  m !! x = None -> addShare s m x = m.
Proof. intros H. unfold addShare. by rewrite H. Qed.

Lemma fold_addShare_is_Some s l (m : gmap string Qc) k :
  is_Some (foldl (addShare s) m l !! k) <-> is_Some (m !! k).
Proof.
  revert m. induction l as [|x l IH]; intros m; simpl; [done|].
  rewrite IH, addShare_lookup. case_bool_decide; [|done].
  by rewrite fmap_is_Some.
Qed.

Lemma itemStep_is_Some st item k :
  is_Some ((itemStep st item).1 !! k) <-> is_Some (st.1 !! k).
Proof.
  unfold itemStep. case_bool_decide; [|done]. simpl.
  apply fold_addShare_is_Some.
Qed.

Lemma fold_itemStep_is_Some items st k :
  is_Some ((foldl itemStep st items).1 !! k) <-> is_Some (st.1 !! k).
Proof.
  revert st. induction items as [|i items IH]; intros st; simpl; [done|].
  by rewrite IH, itemStep_is_Some.
Qed.

Lemma billPersonItemTotals_is_Some people bill k :
  is_Some (billPersonItemTotals people bill !! k) <-> k ∈ ids people.
Proof.
  unfold billPersonItemTotals, billItems.
  rewrite fold_itemStep_is_Some. simpl. rewrite initBill_lookup.
  case_bool_decide; split; try done.
Qed.

(** Each occurrence of an id in [sharedBy] adds one share; with unique
    ids, the members get one share and the others nothing. *)
Lemma fold_addShare_lookup s l (m : gmap string Qc) k :
  NoDup l ->
  foldl (addShare s) m l !! k =
  if bool_decide (k ∈ l) then (fun v => v + s) <$> m !! k else m !! k.
Proof.
  intros Hnd. revert m. induction Hnd as [|x l Hx Hnd IH]; intros m; cbn [foldl].
  - by rewrite bool_decide_eq_false_2 by apply not_elem_of_nil.
  - rewrite IH, addShare_lookup.
    destruct (decide (k = x)) as [->|Hne].
    + rewrite (bool_decide_eq_false_2 (x ∈ l)) by done.
      rewrite (bool_decide_eq_true_2 (x = x)) by done.
      by rewrite (bool_decide_eq_true_2 (x ∈ x :: l)) by (apply elem_of_cons; by left).
    + rewrite (bool_decide_eq_false_2 (k = x)) by done.
      assert (k ∈ x :: l <-> k ∈ l) as Hiff by (rewrite elem_of_cons; tauto).
      by rewrite (bool_decide_ext _ _ Hiff).
Qed.

Lemma itemStep_lookup st item k :
  NoDup (Item.sharedBy item) ->
  (itemStep st item).1 !! k = (fun v => v + itemShare k item) <$> st.1 !! k.
Proof.
  intros Hnd. unfold itemStep, itemShare. case_bool_decide as Hlen; simpl.
  - rewrite fold_addShare_lookup by done. case_bool_decide; [done|].
    destruct (st.1 !! k) as [v|]; simpl; [|done]. apply (f_equal Some). ring.
  - destruct (Item.sharedBy item) as [|x l]; [|simpl in Hlen; lia].
    rewrite bool_decide_eq_false_2 by apply not_elem_of_nil.
    destruct (st.1 !! k) as [v|]; simpl; [|done]. apply (f_equal Some). ring.
Qed.

Lemma fold_itemStep_lookup items st k :
  Forall (fun i => NoDup (Item.sharedBy i)) items ->
  (foldl itemStep st items).1 !! k =
  (fun v => v + sum (itemShare k <$> items)) <$> st.1 !! k.
Proof.
  intros Hnd. revert st. induction Hnd as [|i items Hi _ IH]; intros st; cbn [foldl].
  - rewrite fmap_nil, sum_nil. destruct (st.1 !! k) as [v|]; [|done].
    cbn [fmap option_fmap option_map]. apply (f_equal Some). ring.
  - rewrite IH, itemStep_lookup by done. rewrite fmap_cons, sum_cons.
    destruct (st.1 !! k) as [v|]; [|done].
    cbn [fmap option_fmap option_map]. apply (f_equal Some). ring.
Qed.

Lemma fold_itemStep_assigned items st :
  (foldl itemStep st items).2 =
  st.2 + sum (Item.price <$> filter (fun i => Item.sharedBy i ≠ []) items).
Proof.
  revert st. induction items as [|i items IH]; intros st; cbn [foldl].
  - rewrite filter_nil, fmap_nil, sum_nil. ring.
  - rewrite IH. unfold itemStep.
    destruct (Item.sharedBy i) as [|x l] eqn:E.
    + rewrite bool_decide_eq_false_2 by (simpl; lia).
      rewrite filter_cons_False by (rewrite E; tauto). done.
    + rewrite bool_decide_eq_true_2 by (simpl; lia).
      rewrite filter_cons_True by (rewrite E; done).
      rewrite fmap_cons, sum_cons. cbn [snd]. ring.
Qed.

Lemma billAssignedSubtotal_spec people bill :
  billAssignedSubtotal people bill = assignedSubtotal bill.
Proof.
  unfold billAssignedSubtotal, billItems, assignedSubtotal.
  rewrite fold_itemStep_assigned. cbn [snd]. ring.
Qed.


(** ** What the people hold together equals the assigned subtotal *)










Lemma fold_addShare_lookup_notin s l (m : gmap string Qc) k :
  k ∉ l -> foldl (addShare s) m l !! k = m !! k.
Proof.
  revert m. induction l as [|x l IH]; intros m Hk; cbn [foldl]; [done|].
  apply not_elem_of_cons in Hk as [Hne Hk].
  by rewrite IH, addShare_lookup, bool_decide_eq_false_2.
Qed.






(** The shares of a person of the list are always defined. *)
Lemma personShares_Some people bill person :
  person ∈ people ->
  exists itemTotal,
    billPersonItemTotals people bill !! Person.id person = Some itemTotal /\
    personShares people bill person =
      Some (itemTotal,
            ReceiptData.tax bill * (itemTotal / baseForProportion people bill),
            ReceiptData.serviceCharge bill * (itemTotal / baseForProportion people bill)).
Proof.
  intros Hp.
  destruct (proj2 (billPersonItemTotals_is_Some people bill (Person.id person)))
    as [it Hit]; [by apply list_elem_of_fmap_2|].
  exists it. split; [done|]. unfold personShares. by rewrite Hit.
Qed.

(** A person whose id is in no [sharedBy] of the bill holds nothing. *)
Lemma billPersonItemTotals_unshared people bill person :
  person ∈ people ->
  (forall item, item ∈ ReceiptData.items bill -> Person.id person ∉ Item.sharedBy item) ->
  billPersonItemTotals people bill !! Person.id person = Some 0.
Proof.
  intros Hp Hun. unfold billPersonItemTotals, billItems.
  assert (forall items st,
            (forall item, item ∈ items -> Person.id person ∉ Item.sharedBy item) ->
            (foldl itemStep st items).1 !! Person.id person = st.1 !! Person.id person)
    as H.
  { induction items as [|i items IH]; intros st Hi; cbn [foldl]; [done|].
    rewrite IH by (intros j Hj; apply Hi, elem_of_cons; by right).
    unfold itemStep. case_bool_decide; [|done]. cbn [fst].
    apply fold_addShare_lookup_notin, Hi, elem_of_cons. by left. }
  rewrite H by done. cbn [fst].
  rewrite initBill_lookup, bool_decide_eq_true_2; [done|].
  by apply list_elem_of_fmap_2.
Qed.

(** ** Folding with [undefined] on the way *)

Lemma foldM_nil {A B} (f : B -> A -> option B) b : foldM f [] b = Some b.
Proof. reflexivity. Qed.

Lemma foldM_cons {A B} (f : B -> A -> option B) x l b :
  foldM f (x :: l) b = f b x ≫= foldM f l.
Proof.
  unfold foldM. cbn [foldl mbind option_bind].
  destruct (f b x) as [b'|]; [done|]. cbn [mbind option_bind].
  induction l as [|y l IH]; [done|]. apply IH.
Qed.

Lemma foldM_inv {A B} (P : B -> Prop) (f : B -> A -> option B) l b :
  P b ->
  (forall b x, x ∈ l -> P b -> exists b', f b x = Some b' /\ P b') ->
  exists b', foldM f l b = Some b' /\ P b'.
Proof.
  revert b. induction l as [|x l IH]; intros b Hb Hstep.
  - exists b. by rewrite foldM_nil.
  - destruct (Hstep b x) as (b1 & E1 & H1); [apply elem_of_cons; by left|done|].
    destruct (IH b1 H1) as (b2 & E2 & H2).
    { intros b' y Hy. apply Hstep, elem_of_cons. by right. }
    exists b2. by rewrite foldM_cons, E1.
Qed.

Lemma mapM_Forall2 {A B} (R : A -> B -> Prop) (f : A -> option B) l :
  (forall x, x ∈ l -> exists y, f x = Some y /\ R x y) ->
  exists k, mapM f l = Some k /\ Forall2 R l k.
Proof.
  induction l as [|x l IH]; intros H.
  - exists []. split; [done|constructor].
  - destruct (H x) as (y & Ey & Hy); [apply elem_of_cons; by left|].
    destruct IH as (k & Ek & Hk).
    { intros z Hz. apply H, elem_of_cons. by right. }
    exists (y :: k). split; [|by constructor].
    apply mapM_Some_2. constructor; [done|]. by apply mapM_Some_1.
Qed.

(** ** The invariant of the [personTotals] dictionary *)

Section personTotals.
Variable people : list Person.t.
Variable bills : list ReceiptData.t.

Lemma statsInv_init : statsInv people bills (initPersonTotals people).
Proof.
  split; [|split].
  - intros k Hk. by rewrite initPersonTotals_lookup, bool_decide_eq_true_2.
  - intros k s. rewrite initPersonTotals_lookup. case_bool_decide; [|done].
    intros [= <-]. cbn. ring.
  - intros k _ Hk. by rewrite initPersonTotals_lookup, bool_decide_eq_true_2.
Qed.

Lemma statsInv_personStep bill m person :
  bill ∈ bills -> person ∈ people -> statsInv people bills m ->
  exists m', personStep people bill m person = Some m' /\ statsInv people bills m'.
Proof.
  intros Hb Hp (Hdom & Hfin & Hun).
  destruct (personShares_Some people bill person Hp) as (it & Hit & Hsh).
  destruct (Hdom (Person.id person)) as [s Hs]; [by apply list_elem_of_fmap_2|].
  unfold personStep. rewrite Hsh. cbn [mbind option_bind]. rewrite Hs.
  cbn [mbind option_bind]. eexists. split; [done|]. split; [|split].
  - intros k Hk. apply lookup_insert_is_Some'. right. by apply Hdom.
  - intros k s'. rewrite lookup_insert. case_decide as E.
    + intros [= <-]. cbn. rewrite (Hfin _ _ Hs). ring.
    + apply Hfin.
  - intros k Hk Hkin. rewrite lookup_insert. case_decide as E; [|by apply Hun].
    subst k. rewrite (Hun _ Hk Hkin) in Hs. injection Hs as <-.
    rewrite billPersonItemTotals_unshared in Hit.
    + injection Hit as <-. unfold zeroStats. cbn.
      apply (f_equal Some). unfold Qcdiv. f_equal; ring.
    + done.
    + intros item Hi. by apply (Hk bill).
Qed.

Lemma statsInv_billStep m bill :
  bill ∈ bills -> statsInv people bills m ->
  exists m', billStep people m bill = Some m' /\ statsInv people bills m'.
Proof.
  intros Hb Hm. unfold billStep. apply foldM_inv; [done|].
  intros m1 person Hp H1. by apply statsInv_personStep.
Qed.

Lemma statsInv_bills :
  exists m, foldM (billStep people) bills (initPersonTotals people) = Some m /\
            statsInv people bills m.
Proof.
  apply foldM_inv; [apply statsInv_init|].
  intros m bill Hb Hm. by apply statsInv_billStep.
Qed.
End personTotals.

(** ** The allocator *)

Lemma calculatePersonTotals_Forall2 people bills payments :
  exists m totals,
    statsInv people bills m /\
    calculatePersonTotals people bills payments = Some totals /\
    Forall2 (fun person t => mkTotals payments m person = Some t) people totals.
Proof.
  destruct (statsInv_bills people bills) as (m & Em & Hm).
  destruct (mapM_Forall2 (fun person t => mkTotals payments m person = Some t)
              (mkTotals payments m) people) as (totals & Et & Ht).
  { intros person Hp. destruct Hm as (Hdom & _).
    destruct (Hdom (Person.id person)) as [s Hs]; [by apply list_elem_of_fmap_2|].
    unfold mkTotals. rewrite Hs. cbn [mbind option_bind]. eauto. }
  exists m, totals. split; [done|]. split; [|done].
  unfold calculatePersonTotals. rewrite Em. done.
Qed.



(** Example 2 of the specification: an item of 200 for Alice and Bob,
    tax 20, service 10, Alice pays 230. *)
Example calculatePersonTotals_dinner :
  calculatePersonTotals [alice; bob] [dinner] dinnerPayments =
    Some [PersonTotals.mk "a" "Alice" "bg-red-500"
            (num 100 1) (num 10 1) (num 5 1) (num 115 1) (num 230 1) (num 115 1);
          PersonTotals.mk "b" "Bob" "bg-blue-500"
            (num 100 1) (num 10 1) (num 5 1) (num 115 1) 0 (num (-115) 1)].
Proof. compute_done. Qed.

(** C1.  An item whose [sharedBy] is empty changes nobody's item total
    (nor the assigned subtotal).  An item whose [sharedBy] is a set of
    [N >= 1] ids adds exactly [price / N] to the item total of each
    member that has one, and the outcome does not depend on [qty].  So,
    for a bill whose items have sets as [sharedBy], the item total of
    every person for that bill is the sum over the items of [price / N]
    for the items the person is a member of. *)
Theorem item_split_equal people bill :
  (forall st item, Item.sharedBy item = [] -> itemStep st item = st) /\
  (forall st item personId v,
     NoDup (Item.sharedBy item) ->
     personId ∈ Item.sharedBy item ->
     st.1 !! personId = Some v ->
     (itemStep st item).1 !! personId =
       Some (v + Item.price item / of_nat (length (Item.sharedBy item)))) /\
  (forall st item q, itemStep st (with_qty item q) = itemStep st item) /\
  (Forall (fun i => NoDup (Item.sharedBy i)) (ReceiptData.items bill) ->
   forall person, person ∈ people ->
     billPersonItemTotals people bill !! Person.id person =
       Some (sum (itemShare (Person.id person) <$> ReceiptData.items bill))).
Proof.
  repeat split.
  - intros st item E. unfold itemStep. by rewrite E.
  - intros st item personId v Hnd Hin Hv.
    rewrite itemStep_lookup, Hv by done. unfold itemShare.
    by rewrite bool_decide_eq_true_2.
  - intros Hnd person Hp. unfold billPersonItemTotals, billItems.
    rewrite fold_itemStep_lookup by done. cbn [fst].
    rewrite initBill_lookup, bool_decide_eq_true_2 by by apply list_elem_of_fmap_2.
    cbn [fmap option_fmap option_map]. apply (f_equal Some). ring.
Qed.

Lemma item_split_equal_witness :
  itemStep (initBillPersonItemTotals [alice; bob], 0) water =
    (initBillPersonItemTotals [alice; bob], 0) /\
  (itemStep (initBillPersonItemTotals [alice; bob], 0) pizza).1 !! "a" =
    Some (0 + Item.price pizza / of_nat (length (Item.sharedBy pizza))) /\
  billPersonItemTotals [alice; bob] dinner !! "b" =
    Some (sum (itemShare "b" <$> ReceiptData.items dinner)).
Proof.
  destruct (item_split_equal [alice; bob] dinner) as (H0 & H1 & _ & H3).
  split; [|split].
  - by apply H0.
  - apply (H1 (initBillPersonItemTotals [alice; bob], 0) pizza "a" 0); compute_done.
  - apply (H3 ltac:(compute_done) bob). compute_done.
Defined.

(** C9.  A share addressed to an id that is not a key of the per-bill
    dictionary is dropped: the dictionary is unchanged, and it never
    gets a key that is not the id of a person.  The assigned subtotal
    nevertheless adds the full price of every item with a non-empty
    [sharedBy], and the allocator still returns a value.  Hence there are
    people and a bill for which the people's item totals for the bill
    sum to strictly less than the prices of its assigned items. *)
Theorem unknown_id_share_discarded :
  (forall splitPrice (m : gmap string Qc) personId,
     m !! personId = None -> addShare splitPrice m personId = m) /\
  (forall people bill personId,
     personId ∉ ids people -> billPersonItemTotals people bill !! personId = None) /\
  (forall people bill, billAssignedSubtotal people bill = assignedSubtotal bill) /\
  (forall people bills payments, is_Some (calculatePersonTotals people bills payments)) /\
  (exists people bill,
     ~ knownIds people bill /\
     heldBy people (billPersonItemTotals people bill) < assignedSubtotal bill).
Proof.
  split; [|split; [|split; [|split]]].
  - intros s m x. apply addShare_unknown.
  - intros people bill x Hx. apply eq_None_not_Some.
    by rewrite billPersonItemTotals_is_Some.
  - apply billAssignedSubtotal_spec.
  - intros people bills payments.
    destruct (calculatePersonTotals_Forall2 people bills payments)
      as (m & totals & _ & E & _). by rewrite E.
  - exists [alice], ghostBill. split.
    + compute_done.
    + compute_done.
Qed.

Lemma unknown_id_share_discarded_witness :
  addShare (num 5 1) (initBillPersonItemTotals [alice]) "ghost" =
    initBillPersonItemTotals [alice] /\
  billPersonItemTotals [alice] ghostBill !! "ghost" = None.
Proof.
  destruct unknown_id_share_discarded as (H0 & H1 & _).
  split.
  - apply H0. compute_done.
  - apply H1. compute_done.
Defined.









(** ** The loop of the source performs the reference sweep *)














(** ** The invariant of the sweep *)












(** ** Entries under a name *)


Lemma NoDup_fmap_filter {A B} (f : A -> B) (P : A -> Prop)
    `{!forall x, Decision (P x)} (l : list A) :
  NoDup (f <$> l) -> NoDup (f <$> filter P l).
Proof.
  intros Hnd. eapply sublist_NoDup; [exact Hnd|].
  apply fmap_sublist, sublist_filter.
Qed.









(** ** The settlement solver *)







(** Examples 4, 2 and 1 of the specification. *)
Example calculateSettlements_trip :
  calculateSettlements trip =
    Some [Settlement.mk "Ann" "Cat" (num 30 1); Settlement.mk "Ben" "Cat" (num 20 1)].
Proof. compute_done. Qed.

Example calculateSettlements_dinner :
  calculatePersonTotals [alice; bob] [dinner] dinnerPayments ≫= calculateSettlements =
    Some [Settlement.mk "Bob" "Alice" (num 115 1)].
Proof. compute_done. Qed.

Example calculateSettlements_nobody_paid :
  calculatePersonTotals [alice; bob] [dinner] [] ≫= calculateSettlements = Some [].
Proof. compute_done. Qed.



(** *** Who takes part *)











(** *** Termination and what is left *)


Lemma while_exit fuel s : guard s = false -> while fuel s = Some s.
Proof. intros G. destruct fuel; cbn; by rewrite G. Qed.

(** A larger bound on the number of iterations changes nothing. *)
Lemma while_more_fuel fuel k s s' :
  while fuel s = Some s' -> while (fuel + k) s = Some s'.
Proof.
  revert s. induction fuel as [|fuel IH]; intros s; cbn [while Nat.add].
  - destruct (guard s) eqn:G; [done|]. intros [= <-]. by apply while_exit.
  - destruct (guard s); [|done].
    destruct (loopBody s) as [s1|]; cbn [mbind option_bind]; [|done]. apply IH.
Qed.













(** *** What the transfers settle *)








(** ** The handlers of the session state *)

Lemma Forall2_fmap_diag {A} (R : A -> A -> Prop) (f : A -> A) (l : list A) :
  (forall x, x ∈ l -> R x (f x)) -> Forall2 R l (f <$> l).
Proof.
  intros H. apply Forall2_fmap_r, Forall_Forall2_diag, Forall_forall. exact H.
Qed.

Lemma sameBillBut_items (R : Item.t -> Item.t -> Prop) (f : Item.t -> Item.t) bill :
  (forall i, i ∈ ReceiptData.items bill -> sameItemBut R i (f i)) ->
  sameBillBut R bill (with_items bill (f <$> ReceiptData.items bill)).
Proof.
  intros H. unfold sameBillBut. do 6 (split; [done|]). cbn. by apply Forall2_fmap_diag.
Qed.

Lemma with_items_id bill : with_items bill (ReceiptData.items bill) = bill.
Proof. by destruct bill. Qed.

Lemma with_sharedBy_id item : with_sharedBy item (Item.sharedBy item) = item.
Proof. by destruct item. Qed.

Lemma noCurrentBill_false cur :
  noCurrentBill cur = false -> exists c, cur = Some c /\ c <> "".
Proof.
  destruct cur as [c|]; [|done]. cbn. intros H%bool_decide_eq_false. eauto.
Qed.

(** X1.  [removePerson]: the person is gone from [people], whose other
    members keep their order, and from every [sharedBy] of every bill;
    nothing else changes, not even the stored amounts of the bills. *)
Theorem removePerson_forgets people bills id :
  (forall p, p ∈ (removePerson people bills id).1 <-> p ∈ people /\ Person.id p <> id) /\
  (removePerson people bills id).1 `sublist_of` people /\
  Forall2
    (sameBillBut (fun i i' =>
       forall x, x ∈ Item.sharedBy i' <-> x ∈ Item.sharedBy i /\ x <> id))
    bills (removePerson people bills id).2.
Proof.
  unfold removePerson. cbn [fst snd]. split; [|split].
  - intros p. rewrite list_elem_of_filter. tauto.
  - apply sublist_filter.
  - apply Forall2_fmap_diag. intros bill _. apply sameBillBut_items.
    intros i _. unfold sameItemBut. do 4 (split; [done|]).
    intros x. cbn. rewrite list_elem_of_filter. tauto.
Qed.

(** The callbacks on one item. *)
Ltac same_fields := unfold sameItemBut; do 4 (split; [done|]).

Lemma toggleShare_spec itemId personId i :
  sameItemBut (fun i i' =>
    (Item.id i <> itemId -> i' = i) /\
    (Item.id i = itemId ->
       (personId ∈ Item.sharedBy i' <-> personId ∉ Item.sharedBy i) /\
       (forall x, x <> personId -> x ∈ Item.sharedBy i' <-> x ∈ Item.sharedBy i)))
    i (toggleShare itemId personId i).
Proof.
  unfold toggleShare. case_bool_decide as E; same_fields.
  - split; [done|]. intros _. cbn. case_bool_decide as Hin.
    + split.
      * rewrite list_elem_of_filter. tauto.
      * intros x Hx. rewrite list_elem_of_filter. tauto.
    + split.
      * rewrite elem_of_app, list_elem_of_singleton. tauto.
      * intros x Hx. rewrite elem_of_app, list_elem_of_singleton. tauto.
  - split; done.
Qed.

Lemma selectAll_spec itemId allPersonIds i :
  sameItemBut (fun i i' =>
    (Item.id i <> itemId -> i' = i) /\
    (Item.id i = itemId ->
       (length (Item.sharedBy i) = length allPersonIds -> Item.sharedBy i' = []) /\
       (length (Item.sharedBy i) <> length allPersonIds ->
          Item.sharedBy i' = allPersonIds)))
    i (selectAll itemId allPersonIds i).
Proof.
  unfold selectAll. case_bool_decide as E; same_fields.
  - split; [done|]. intros _. cbn. split; intros H.
    + by rewrite bool_decide_eq_true_2.
    + by rewrite bool_decide_eq_false_2.
  - split; done.
Qed.

(** X2.  [toggleItemShare]: without a current bill nothing changes.  With
    one, only the items with the given id in the bills with the current
    id change, and only in this: the person is in their [sharedBy] after
    the call exactly when it was not before; the other members stay. *)
Theorem toggleItemShare_flips cur bills itemId personId :
  (noCurrentBill cur = true -> toggleItemShare cur bills itemId personId = bills) /\
  (noCurrentBill cur = false ->
   Forall2 (fun b b' =>
      (isCurrent cur b = false -> b' = b) /\
      (isCurrent cur b = true ->
       sameBillBut (fun i i' =>
         (Item.id i <> itemId -> i' = i) /\
         (Item.id i = itemId ->
            (personId ∈ Item.sharedBy i' <-> personId ∉ Item.sharedBy i) /\
            (forall x, x <> personId ->
               x ∈ Item.sharedBy i' <-> x ∈ Item.sharedBy i))) b b'))
     bills (toggleItemShare cur bills itemId personId)).
Proof.
  unfold toggleItemShare. split; intros ->; [done|].
  apply Forall2_fmap_diag. intros b _. destruct (isCurrent cur b); split; try done.
  intros _. apply sameBillBut_items. intros i _. apply toggleShare_spec.
Qed.

Lemma toggleItemShare_flips_witness :
  Forall2 (fun b b' =>
      (isCurrent (Some "r1") b = false -> b' = b) /\
      (isCurrent (Some "r1") b = true ->
       sameBillBut (fun i i' =>
         (Item.id i <> "i1" -> i' = i) /\
         (Item.id i = "i1" ->
            ("c" ∈ Item.sharedBy i' <-> "c" ∉ Item.sharedBy i) /\
            (forall x, x <> "c" -> x ∈ Item.sharedBy i' <-> x ∈ Item.sharedBy i))) b b'))
    [dinner; tea] (toggleItemShare (Some "r1") [dinner; tea] "i1" "c") /\
  toggleItemShare None [dinner; tea] "i1" "c" = [dinner; tea].
Proof.
  destruct (toggleItemShare_flips (Some "r1") [dinner; tea] "i1" "c") as [_ H].
  destruct (toggleItemShare_flips None [dinner; tea] "i1" "c") as [H0 _].
  split; [apply H|apply H0]; reflexivity.
Defined.

(** X3.  [selectAllPeopleForItem]: without a current bill nothing changes.
    With one, only the items with the given id in the bills with the
    current id change: their [sharedBy] becomes empty when it had as many
    entries as there are people (whoever they were), and the ids of all
    the people, in the order of the list, otherwise. *)
Theorem selectAllPeopleForItem_all_or_none cur people bills itemId :
  (noCurrentBill cur = true -> selectAllPeopleForItem cur people bills itemId = bills) /\
  (noCurrentBill cur = false ->
   Forall2 (fun b b' =>
      (isCurrent cur b = false -> b' = b) /\
      (isCurrent cur b = true ->
       sameBillBut (fun i i' =>
         (Item.id i <> itemId -> i' = i) /\
         (Item.id i = itemId ->
            (length (Item.sharedBy i) = length people -> Item.sharedBy i' = []) /\
            (length (Item.sharedBy i) <> length people ->
               Item.sharedBy i' = ids people))) b b'))
     bills (selectAllPeopleForItem cur people bills itemId)).
Proof.
  unfold selectAllPeopleForItem. split; intros ->; [done|].
  apply Forall2_fmap_diag. intros b _. destruct (isCurrent cur b); split; try done.
  intros _. apply sameBillBut_items. intros i _.
  pose proof (selectAll_spec itemId (Person.id <$> people) i) as H.
  by rewrite length_fmap in H.
Qed.

Lemma selectAllPeopleForItem_all_or_none_witness :
  selectAllPeopleForItem (Some "") [alice; bob] [dinner] "i1" = [dinner] /\
  Forall2 (fun b b' =>
      (isCurrent (Some "r1") b = false -> b' = b) /\
      (isCurrent (Some "r1") b = true ->
       sameBillBut (fun i i' =>
         (Item.id i <> "i1" -> i' = i) /\
         (Item.id i = "i1" ->
            (length (Item.sharedBy i) = length [alice; bob] -> Item.sharedBy i' = []) /\
            (length (Item.sharedBy i) <> length [alice; bob] ->
               Item.sharedBy i' = ids [alice; bob]))) b b'))
    [dinner] (selectAllPeopleForItem (Some "r1") [alice; bob] [dinner] "i1").
Proof.
  destruct (selectAllPeopleForItem_all_or_none (Some "") [alice; bob] [dinner] "i1")
    as [H0 _].
  destruct (selectAllPeopleForItem_all_or_none (Some "r1") [alice; bob] [dinner] "i1")
    as [_ H].
  split; [apply H0|apply H]; reflexivity.
Defined.

(** *** The assignments stay well formed *)

Lemma assignmentsOk_items people bills :
  assignmentsOk people bills <->
  NoDup (ids people) /\
  Forall (fun b => Forall (itemOk people) (ReceiptData.items b)) bills.
Proof.
  unfold assignmentsOk, knownIds, itemOk. split; intros [Hnd H]; (split; [done|]);
    (eapply Forall_impl; [exact H|]); cbn beta; intros b.
  - intros [H1 H2]. rewrite Forall_forall in H1, H2. apply Forall_forall. eauto.
  - intros H1. rewrite Forall_forall in H1.
    split; apply Forall_forall; intros i Hi; by apply H1.
Qed.

Lemma itemsOk_map people (f : Item.t -> Item.t) cur bills :
  (forall i, itemOk people i -> itemOk people (f i)) ->
  Forall (fun b => Forall (itemOk people) (ReceiptData.items b)) bills ->
  Forall (fun b => Forall (itemOk people) (ReceiptData.items b))
    ((fun b => if isCurrent cur b
               then with_items b (f <$> ReceiptData.items b) else b) <$> bills).
Proof.
  intros Hf H. apply Forall_fmap. eapply Forall_impl; [exact H|]. cbn beta.
  intros b Hb. unfold compose. destruct (isCurrent cur b); [|done]. cbn.
  apply Forall_fmap. eapply Forall_impl; [exact Hb|]. exact Hf.
Qed.

Lemma toggleShare_ok people itemId personId i :
  personId ∈ ids people -> itemOk people i -> itemOk people (toggleShare itemId personId i).
Proof.
  intros Hp [Hk Hnd]. unfold toggleShare. case_bool_decide; [|done]. cbn.
  case_bool_decide as Hin; split; cbn.
  - apply Forall_forall. intros x [_ Hx]%list_elem_of_filter.
    rewrite Forall_forall in Hk. by apply Hk.
  - by apply NoDup_filter.
  - apply Forall_app. split; [done|]. by apply Forall_singleton.
  - apply NoDup_app. split; [done|]. split; [|apply NoDup_singleton].
    intros x Hx ->%list_elem_of_singleton. done.
Qed.

Lemma selectAll_ok people itemId i :
  NoDup (ids people) -> itemOk people i -> itemOk people (selectAll itemId (ids people) i).
Proof.
  intros Hnd Hi. unfold selectAll. case_bool_decide; [|done].
  case_bool_decide; split; cbn; try done; try constructor.
  by apply Forall_forall.
Qed.

Lemma removed_ok people id i :
  itemOk people i ->
  itemOk (filter (fun p => Person.id p ≠ id) people)
    (with_sharedBy i (filter (fun personId => personId ≠ id) (Item.sharedBy i))).
Proof.
  intros [Hk Hnd]. split; cbn; [|by apply NoDup_filter].
  apply Forall_forall. intros x [Hx Hin]%list_elem_of_filter.
  rewrite Forall_forall in Hk. apply Hk in Hin.
  apply list_elem_of_fmap in Hin as (p & -> & Hp).
  apply list_elem_of_fmap_2. by apply list_elem_of_filter.
Qed.

Lemma itemOk_more people q i : itemOk people i -> itemOk (people ++ [q]) i.
Proof.
  intros [Hk Hnd]. split; [|done]. eapply Forall_impl; [exact Hk|].
  intros x Hx. unfold ids. rewrite fmap_app. apply elem_of_app. by left.
Qed.

Lemma addPerson_Some people newId trimmed :
  exists people', addPerson people newId trimmed = Some people' /\
    ((trimmed = "" /\ people' = people) \/
     (trimmed <> "" /\
      exists color, COLORS !! (length people mod 10)%nat = Some color /\
        people' = people ++ [Person.mk newId trimmed color])).
Proof.
  unfold addPerson. case_bool_decide as E; [eauto|].
  change (length COLORS) with 10%nat.
  destruct (COLORS !! (length people mod 10)%nat) as [color|] eqn:Hc.
  - cbn. eauto 10.
  - apply lookup_ge_None in Hc. change (length COLORS) with 10%nat in Hc.
    pose proof (Nat.mod_upper_bound (length people) 10). lia.
Qed.

(** X4.  The assignments of a session stay well formed (unique person ids,
    every [sharedBy] duplicate free and made of ids of people) under
    [removePerson], [toggleItemShare] for a person of the list,
    [selectAllPeopleForItem], the new item and the new bills, and under
    [addPerson] when the id drawn is not in use. *)
Theorem handlers_keep_assignments people bills :
  assignmentsOk people bills ->
  (forall id,
     assignmentsOk (removePerson people bills id).1 (removePerson people bills id).2) /\
  (forall cur itemId personId,
     personId ∈ ids people ->
     assignmentsOk people (toggleItemShare cur bills itemId personId)) /\
  (forall cur itemId,
     assignmentsOk people (selectAllPeopleForItem cur people bills itemId)) /\
  (forall cur newId, assignmentsOk people (addItem cur bills newId)) /\
  (forall billId, assignmentsOk people (addManualBill bills billId)) /\
  (forall billId itemId parsedData,
     assignmentsOk people (bills ++ [newBill billId itemId parsedData])) /\
  (forall newId trimmed,
     newId ∉ ids people ->
     exists people', addPerson people newId trimmed = Some people' /\
                     assignmentsOk people' bills).
Proof.
  intros [Hnd Hb]%assignmentsOk_items.
  split; [|split; [|split; [|split; [|split; [|split]]]]].
  - intros id. apply assignmentsOk_items. unfold removePerson. cbn [fst snd]. split.
    + by apply NoDup_fmap_filter.
    + apply Forall_fmap. eapply Forall_impl; [exact Hb|]. intros b Hi. unfold compose. cbn.
      apply Forall_fmap. eapply Forall_impl; [exact Hi|]. intros i. apply removed_ok.
  - intros cur itemId personId Hp. apply assignmentsOk_items. split; [done|].
    unfold toggleItemShare. destruct (noCurrentBill cur); [done|].
    apply itemsOk_map; [|done]. intros i. by apply toggleShare_ok.
  - intros cur itemId. apply assignmentsOk_items. split; [done|].
    unfold selectAllPeopleForItem. destruct (noCurrentBill cur); [done|].
    apply itemsOk_map; [|done]. intros i. by apply selectAll_ok.
  - intros cur newId. apply assignmentsOk_items. split; [done|].
    unfold addItem. apply Forall_fmap. eapply Forall_impl; [exact Hb|].
    intros b Hi. unfold compose. destruct (isCurrent cur b); [|done]. cbn.
    apply Forall_app. split; [done|]. apply Forall_singleton.
    split; cbn; constructor.
  - intros billId. apply assignmentsOk_items. split; [done|].
    unfold addManualBill. apply Forall_app. split; [done|].
    apply Forall_singleton. cbn. constructor.
  - intros billId itemId parsedData. apply assignmentsOk_items. split; [done|].
    apply Forall_app. split; [done|]. apply Forall_singleton. cbn.
    unfold itemsWithIds. apply Forall_forall.
    intros i [n Hn]%list_elem_of_lookup_1.
    apply list_lookup_imap_Some in Hn as (x & _ & ->).
    split; cbn; constructor.
  - intros newId trimmed Hfresh.
    destruct (addPerson_Some people newId trimmed)
      as (people' & E & [[_ Hp]|(_ & color & _ & Hp)]);
      exists people'; (split; [done|]); rewrite Hp; apply assignmentsOk_items.
    + done.
    + split.
      * unfold ids. rewrite fmap_app. apply NoDup_app. split; [done|].
        split; [|apply NoDup_singleton].
        intros x Hx ->%list_elem_of_singleton. done.
      * eapply Forall_impl; [exact Hb|]. intros b Hi.
        eapply Forall_impl; [exact Hi|]. intros i. apply itemOk_more.
Qed.

Lemma handlers_keep_assignments_witness :
  assignmentsOk (removePerson [alice; bob; carol] [dinner; tea] "b").1
                (removePerson [alice; bob; carol] [dinner; tea] "b").2 /\
  assignmentsOk [alice; bob; carol]
    (toggleItemShare (Some "r1") [dinner; tea] "i1" "c") /\
  exists people',
    addPerson [alice; bob; carol] "d" "Dan" = Some people' /\
    assignmentsOk people' [dinner; tea].
Proof.
  assert (assignmentsOk [alice; bob; carol] [dinner; tea]) as Hok
    by (unfold assignmentsOk, knownIds; compute_done).
  destruct (handlers_keep_assignments _ _ Hok) as (Hrm & Htg & _ & _ & _ & _ & Hadd).
  split; [apply Hrm|]. split.
  - apply Htg. compute_done.
  - apply Hadd. compute_done.
Defined.

(** X5.  [addPerson]: a blank name changes nothing; otherwise exactly one
    person is added, at the end, with the id drawn, the trimmed name and
    the colour of [COLORS] at the number of people modulo 10, an index
    that is always in the table. *)
Theorem addPerson_appends people newId trimmed :
  exists people',
    addPerson people newId trimmed = Some people' /\
    (trimmed = "" -> people' = people) /\
    (trimmed <> "" ->
     exists color,
       COLORS !! (length people mod 10)%nat = Some color /\
       people' = people ++ [Person.mk newId trimmed color]).
Proof.
  destruct (addPerson_Some people newId trimmed)
    as (people' & E & [[Ht Hp]|(Ht & color & Hc & Hp)]); exists people';
    (split; [done|]); split; intros H; try done. eauto.
Qed.

Lemma addPerson_appends_witness :
  exists people',
    addPerson [alice; bob] "c" "Carol" = Some people' /\
    exists color,
      COLORS !! (length [alice; bob] mod 10)%nat = Some color /\
      people' = [alice; bob] ++ [Person.mk "c" "Carol" color].
Proof.
  destruct (addPerson_appends [alice; bob] "c" "Carol") as (people' & E & _ & H).
  exists people'. split; [done|]. by apply H.
Defined.

(** ** What the allocator reads in a bill *)

Lemma foldM_app {A B} (f : B -> A -> option B) l k b :
  foldM f (l ++ k) b = foldM f l b ≫= foldM f k.
Proof.
  revert b. induction l as [|x l IH]; intros b; [done|].
  rewrite <- app_comm_cons, !foldM_cons.
  destruct (f b x) as [b'|]; [|done]. cbn [mbind option_bind]. apply IH.
Qed.

Lemma foldM_ext {A B} (f g : B -> A -> option B) l b :
  (forall b x, x ∈ l -> f b x = g b x) -> foldM f l b = foldM g l b.
Proof.
  revert b. induction l as [|x l IH]; intros b H; [done|].
  rewrite !foldM_cons, H by (apply elem_of_cons; by left).
  destruct (g b x) as [b'|]; [|done]. cbn [mbind option_bind].
  apply IH. intros b0 y Hy. apply H, elem_of_cons. by right.
Qed.

Lemma foldM_Forall2 {A B} (f : B -> A -> option B) (R : A -> A -> Prop) l l' b :
  (forall b x y, R x y -> f b x = f b y) ->
  Forall2 R l l' -> foldM f l b = foldM f l' b.
Proof.
  intros Hf H. revert b. induction H as [|x y l l' Hxy _ IH]; intros b; [done|].
  rewrite !foldM_cons, (Hf b x y Hxy).
  destruct (f b y) as [b'|]; [|done]. apply IH.
Qed.

Lemma foldM_fixed {A B} (f : B -> A -> option B) l b :
  (forall x, x ∈ l -> f b x = Some b) -> foldM f l b = Some b.
Proof.
  induction l as [|x l IH]; intros H; [done|].
  rewrite foldM_cons, H by (apply elem_of_cons; by left). cbn [mbind option_bind].
  apply IH. intros y Hy. apply H, elem_of_cons. by right.
Qed.

(** The body of [bills.forEach] reads of the bill its two locals after
    the item loop, its subtotal, its tax and its service charge. *)
Lemma billStep_view people m b b' :
  billItems people b' = billItems people b ->
  ReceiptData.subtotal b' = ReceiptData.subtotal b ->
  ReceiptData.tax b' = ReceiptData.tax b ->
  ReceiptData.serviceCharge b' = ReceiptData.serviceCharge b ->
  billStep people m b = billStep people m b'.
Proof.
  intros Hi Hs Ht Hc. unfold billStep. apply foldM_ext. intros m0 person _.
  unfold personStep, personShares, baseForProportion,
    billPersonItemTotals, billAssignedSubtotal.
  by rewrite Hi, Hs, Ht, Hc.
Qed.

Lemma itemStep_perm st i i' :
  Item.price i' = Item.price i -> NoDup (Item.sharedBy i) ->
  Item.sharedBy i' ≡ₚ Item.sharedBy i ->
  itemStep st i' = itemStep st i.
Proof.
  intros Hp Hnd Hperm. unfold itemStep.
  rewrite Hp, (Permutation_length Hperm). case_bool_decide; [|done]. f_equal.
  apply map_eq. intros k.
  rewrite !fold_addShare_lookup by (done || by rewrite Hperm).
  by rewrite (bool_decide_ext _ _ (elem_of_Permutation_proper k _ _ Hperm)).
Qed.

Lemma billItems_allocEquiv people b b' :
  allocEquiv b b' -> billItems people b' = billItems people b.
Proof.
  intros (_ & _ & _ & H). unfold billItems.
  generalize (initBillPersonItemTotals people, Q2Qc 0). 
  induction H as [|i i' l l' (Hp & Hnd & Hperm) _ IH]; intros st; cbn [foldl]; [done|].
  rewrite (itemStep_perm st i i') by done. apply IH.
Qed.

(** X6.  The allocator reads of a bill its subtotal, tax and service charge
    and of its items their prices and their [sharedBy]: the result does
    not depend on any name, id, [qty] or [total], nor on the order of the
    ids inside a duplicate free [sharedBy]. *)
Theorem calculatePersonTotals_reads people bills bills' payments :
  Forall2 allocEquiv bills bills' ->
  calculatePersonTotals people bills' payments =
  calculatePersonTotals people bills payments.
Proof.
  intros H. unfold calculatePersonTotals.
  rewrite (foldM_Forall2 (billStep people) allocEquiv bills bills'); [done| |done].
  intros m b b' Hb. pose proof (billItems_allocEquiv people _ _ Hb) as Hi.
  destruct Hb as (Hs & Ht & Hc & _). by apply billStep_view.
Qed.

Lemma calculatePersonTotals_reads_witness :
  calculatePersonTotals [alice; bob] [dinnerAgain] dinnerPayments =
  calculatePersonTotals [alice; bob] [dinner] dinnerPayments.
Proof.
  apply calculatePersonTotals_reads. constructor; [|constructor].
  unfold allocEquiv. do 3 (split; [reflexivity|]).
  constructor; [|constructor]. split; [reflexivity|]. split; [compute_done|].
  apply perm_swap.
Defined.

Lemma calculatePersonTotals_view people bills bills' payments :
  Forall2 (fun b b' =>
             billItems people b' = billItems people b /\
             ReceiptData.subtotal b' = ReceiptData.subtotal b /\
             ReceiptData.tax b' = ReceiptData.tax b /\
             ReceiptData.serviceCharge b' = ReceiptData.serviceCharge b)
          bills bills' ->
  calculatePersonTotals people bills' payments =
  calculatePersonTotals people bills payments.
Proof.
  intros H. unfold calculatePersonTotals.
  assert (foldM (billStep people) bills (initPersonTotals people) =
          foldM (billStep people) bills' (initPersonTotals people)) as ->; [|done].
  eapply foldM_Forall2; [|exact H]. cbn beta.
  intros m b b' (Hi & Hs & Ht & Hc). by apply billStep_view.
Qed.

Lemma billStep_unassigned people m bill :
  (forall k, k ∈ ids people -> is_Some (m !! k)) ->
  Forall (fun i => Item.sharedBy i = []) (ReceiptData.items bill) ->
  billStep people m bill = Some m.
Proof.
  intros Hdom Hun. unfold billStep. apply foldM_fixed. intros person Hp.
  unfold personStep, personShares.
  rewrite (billPersonItemTotals_unshared people bill person Hp).
  - cbn [mbind option_bind].
    destruct (Hdom (Person.id person)) as [s Hs]; [by apply list_elem_of_fmap_2|].
    rewrite Hs. cbn [mbind option_bind]. f_equal. apply insert_id. rewrite Hs.
    f_equal. destruct s as [a b c d]. cbn. unfold Qcdiv. f_equal; ring.
  - intros item Hi. rewrite Forall_forall in Hun. rewrite (Hun item Hi).
    apply not_elem_of_nil.
Qed.

Lemma calculatePersonTotals_unassigned people bills bill payments :
  Forall (fun i => Item.sharedBy i = []) (ReceiptData.items bill) ->
  calculatePersonTotals people (bills ++ [bill]) payments =
  calculatePersonTotals people bills payments.
Proof.
  intros Hun. unfold calculatePersonTotals. rewrite foldM_app.
  destruct (statsInv_bills people bills) as (m & -> & Hdom & _).
  cbn [mbind option_bind]. rewrite foldM_cons, billStep_unassigned by done. done.
Qed.

(** X7.  A bill or an item that has just been added changes nobody's totals,
    whatever tax and service charge the bill carries: the bill made from
    the answer of the extraction service, the empty bill of the manual
    entry and the new manual item have nobody in their [sharedBy]. *)
Theorem new_bills_and_items_change_nothing people bills payments :
  (forall billId itemId parsedData,
     calculatePersonTotals people (bills ++ [newBill billId itemId parsedData]) payments
     = calculatePersonTotals people bills payments) /\
  (forall billId,
     calculatePersonTotals people (addManualBill bills billId) payments
     = calculatePersonTotals people bills payments) /\
  (forall cur newId,
     calculatePersonTotals people (addItem cur bills newId) payments
     = calculatePersonTotals people bills payments).
Proof.
  split; [|split].
  - intros billId itemId parsedData. apply calculatePersonTotals_unassigned. cbn.
    unfold itemsWithIds. apply Forall_forall. intros i [n Hn]%list_elem_of_lookup_1.
    by apply list_lookup_imap_Some in Hn as (x & _ & ->).
  - intros billId. apply calculatePersonTotals_unassigned. constructor.
  - intros cur newId. apply calculatePersonTotals_view. unfold addItem.
    apply Forall2_fmap_diag. intros b _. destruct (isCurrent cur b); [|done].
    repeat split. unfold billItems. cbn. by rewrite foldl_app.
Qed.

(** *** Toggling twice *)


Lemma filter_all {A} (P : A -> Prop) `{!forall x, Decision (P x)} (l : list A) :
  (forall x, x ∈ l -> P x) -> filter P l = l.
Proof.
  induction l as [|x l IH]; intros Hl; [done|].
  rewrite filter_cons_True by (apply Hl, elem_of_cons; by left).
  f_equal. apply IH. intros y Hy. apply Hl, elem_of_cons. by right.
Qed.

Lemma toggleShare_twice itemId personId i :
  NoDup (Item.sharedBy i) ->
  sameItemBut (fun i i' => Item.sharedBy i' ≡ₚ Item.sharedBy i)
    i (toggleShare itemId personId (toggleShare itemId personId i)).
Proof.
  intros Hnd. unfold toggleShare at 2. case_bool_decide as E.
  - unfold toggleShare. cbn [Item.id with_sharedBy]. rewrite bool_decide_eq_true_2 by done.
    same_fields. cbn [Item.sharedBy with_sharedBy].
    destruct (decide (personId ∈ Item.sharedBy i)) as [Hin|Hin].
    + rewrite (bool_decide_eq_true_2 _ Hin).
      rewrite bool_decide_eq_false_2 by (rewrite list_elem_of_filter; tauto).
      apply NoDup_Permutation; [|done|].
      * apply NoDup_app. split; [by apply NoDup_filter|].
        split; [|apply NoDup_singleton].
        intros x [Hx _]%list_elem_of_filter ->%list_elem_of_singleton. done.
      * intros x. rewrite elem_of_app, list_elem_of_filter, list_elem_of_singleton.
        destruct (decide (x = personId)) as [->|]; tauto.
    + rewrite (bool_decide_eq_false_2 _ Hin).
      rewrite bool_decide_eq_true_2
        by (apply elem_of_app; right; by apply list_elem_of_singleton).
      rewrite filter_app, filter_cons_False, filter_nil, app_nil_r by tauto.
      rewrite filter_all; [done|]. intros x Hx ->. done.
  - unfold toggleShare. rewrite bool_decide_eq_false_2 by done. by same_fields.
Qed.

(** X8.  Toggling the same share twice gives every [sharedBy] its members
    back (a member toggled off and on again moves to the end), and hence
    everybody the same totals, when the [sharedBy] were duplicate free. *)
Theorem toggleItemShare_twice cur people bills payments itemId personId :
  Forall (fun b => Forall (fun i => NoDup (Item.sharedBy i)) (ReceiptData.items b))
         bills ->
  Forall2 (sameBillBut (fun i i' => Item.sharedBy i' ≡ₚ Item.sharedBy i))
    bills
    (toggleItemShare cur (toggleItemShare cur bills itemId personId) itemId personId) /\
  calculatePersonTotals people
    (toggleItemShare cur (toggleItemShare cur bills itemId personId) itemId personId)
    payments
  = calculatePersonTotals people bills payments.
Proof.
  intros Hnd.
  assert (Forall2 (fun b b' =>
            sameBillBut (fun i i' => Item.sharedBy i' ≡ₚ Item.sharedBy i) b b' /\
            allocEquiv b b')
          bills
          (toggleItemShare cur (toggleItemShare cur bills itemId personId)
             itemId personId)) as H.
  { unfold toggleItemShare. destruct (noCurrentBill cur).
    - apply Forall_Forall2_diag. eapply Forall_impl; [exact Hnd|]. intros b Hb.
      split.
      + unfold sameBillBut. do 6 (split; [done|]). apply Forall_Forall2_diag.
        apply Forall_forall. intros i _. by same_fields.
      + unfold allocEquiv. do 3 (split; [done|]). apply Forall_Forall2_diag.
        eapply Forall_impl; [exact Hb|]. by intros i Hi.
    - rewrite <- list_fmap_compose. apply Forall2_fmap_r, Forall_Forall2_diag.
      eapply Forall_impl; [exact Hnd|]. intros b Hb. unfold compose.
      destruct (isCurrent cur b) eqn:Ecur.
      + assert (isCurrent cur
                  (with_items b (toggleShare itemId personId <$> ReceiptData.items b))
                = true) as -> by exact Ecur.
        cbn [ReceiptData.items with_items]. rewrite <- list_fmap_compose. split.
        * unfold sameBillBut. do 6 (split; [done|]). cbn.
          apply Forall2_fmap_r, Forall_Forall2_diag.
          eapply Forall_impl; [exact Hb|]. intros i Hi. by apply toggleShare_twice.
        * unfold allocEquiv. do 3 (split; [done|]). cbn.
          apply Forall2_fmap_r, Forall_Forall2_diag.
          eapply Forall_impl; [exact Hb|]. intros i Hi.
          destruct (toggleShare_twice itemId personId i Hi) as (_ & _ & Hp & _ & Hperm).
          done.
      + rewrite Ecur. split.
        * unfold sameBillBut. do 6 (split; [done|]). apply Forall_Forall2_diag.
          apply Forall_forall. intros i _. by same_fields.
        * unfold allocEquiv. do 3 (split; [done|]). apply Forall_Forall2_diag.
          eapply Forall_impl; [exact Hb|]. by intros i Hi. }
  split.
  - eapply Forall2_impl; [exact H|]. by intros b b' [? _].
  - apply calculatePersonTotals_reads. eapply Forall2_impl; [exact H|]. by intros b b' [_ ?].
Qed.

Lemma toggleItemShare_twice_witness :
  calculatePersonTotals [alice; bob]
    (toggleItemShare (Some "r1") (toggleItemShare (Some "r1") [dinner] "i1" "a") "i1" "a")
    dinnerPayments
  = calculatePersonTotals [alice; bob] [dinner] dinnerPayments.
Proof.
  apply (toggleItemShare_twice (Some "r1") [alice; bob] [dinner] dinnerPayments "i1" "a").
  compute_done.
Defined.

(** ** What the people are charged for a bill *)








(** ** Totals over several bills *)

Lemma personStep_eq people bill m person :
  person ∈ people -> is_Some (m !! Person.id person) ->
  exists s, m !! Person.id person = Some s /\
    personStep people bill m person =
      Some (<[Person.id person := addStats s (shareOf people bill person)]> m).
Proof.
  intros Hp [s Hs]. exists s. split; [done|].
  destruct (personShares_Some people bill person Hp) as (it & _ & Hsh).
  unfold personStep, shareOf. rewrite Hsh. cbn [mbind option_bind]. rewrite Hs. done.
Qed.

Lemma fold_personStep people bill ps m :
  (forall p, p ∈ ps -> p ∈ people) -> NoDup (ids ps) ->
  (forall k, k ∈ ids people -> is_Some (m !! k)) ->
  exists m',
    foldM (personStep people bill) ps m = Some m' /\
    (forall k, k ∈ ids people -> is_Some (m' !! k)) /\
    (forall k, k ∉ ids ps -> m' !! k = m !! k) /\
    (forall p, p ∈ ps ->
       m' !! Person.id p =
       (fun s => addStats s (shareOf people bill p)) <$> m !! Person.id p).
Proof.
  revert m. induction ps as [|q qs IH]; intros m Hsub Hnd Hdom.
  - exists m. split; [done|]. split; [done|]. split; [done|].
    intros p Hp. by apply elem_of_nil in Hp.
  - unfold ids in Hnd. rewrite fmap_cons in Hnd. apply NoDup_cons in Hnd as [Hq Hnd].
    assert (q ∈ people) as Hqp by (apply Hsub, elem_of_cons; by left).
    destruct (personStep_eq people bill m q Hqp) as (s & Hs & Hstep).
    { apply Hdom. by apply list_elem_of_fmap_2. }
    destruct (IH (<[Person.id q := addStats s (shareOf people bill q)]> m))
      as (m' & E & Hdom' & Hout & Hin); [|done| |].
    { intros p Hp. apply Hsub, elem_of_cons. by right. }
    { intros k Hk. apply lookup_insert_is_Some'. right. by apply Hdom. }
    exists m'. rewrite foldM_cons, Hstep. cbn [mbind option_bind].
    split; [done|]. split; [done|]. split.
    + intros k Hk. unfold ids in Hk. rewrite fmap_cons in Hk.
      apply not_elem_of_cons in Hk as [Hne Hk].
      rewrite Hout by done. by rewrite lookup_insert_ne.
    + intros p [->|Hp]%elem_of_cons.
      * rewrite Hout by done. by rewrite lookup_insert_eq, Hs.
      * rewrite Hin by done. rewrite lookup_insert_ne; [done|].
        intros E'. apply Hq. rewrite E'. by apply list_elem_of_fmap_2.
Qed.

Lemma fold_billStep people bills m person s :
  NoDup (ids people) -> person ∈ people ->
  (forall k, k ∈ ids people -> is_Some (m !! k)) ->
  m !! Person.id person = Some s ->
  exists m' s',
    foldM (billStep people) bills m = Some m' /\
    m' !! Person.id person = Some s' /\
    Stats.itemTotal s' =
      Stats.itemTotal s + sum ((fun b => (shareOf people b person).1.1) <$> bills) /\
    Stats.taxShare s' =
      Stats.taxShare s + sum ((fun b => (shareOf people b person).1.2) <$> bills) /\
    Stats.serviceShare s' =
      Stats.serviceShare s + sum ((fun b => (shareOf people b person).2) <$> bills) /\
    Stats.finalTotal s' =
      Stats.finalTotal s + sum ((fun b => chargeOf people b person) <$> bills).
Proof.
  intros Hnd Hp. revert m s. induction bills as [|b bills IH]; intros m s Hdom Hs.
  - exists m, s. rewrite !fmap_nil, !sum_nil. split; [done|]. split; [done|].
    repeat split; ring.
  - destruct (fold_personStep people b people m) as (m1 & E1 & Hdom1 & _ & Hin);
      [done|done|done|].
    specialize (Hin person Hp). rewrite Hs in Hin. cbn in Hin.
    destruct (IH m1 _ Hdom1 Hin) as (m' & s' & E & Hs' & H1 & H2 & H3 & H4).
    exists m', s'. rewrite foldM_cons.
    change (billStep people m b) with (foldM (personStep people b) people m).
    rewrite E1.
    cbn [mbind option_bind]. split; [done|]. split; [done|].
    rewrite !fmap_cons, !sum_cons, H1, H2, H3, H4. cbn. unfold chargeOf.
    repeat split; ring.
Qed.

Lemma calculatePersonTotals_sums people bills payments :
  NoDup (ids people) ->
  exists totals,
    calculatePersonTotals people bills payments = Some totals /\
    Forall2 (fun person t =>
      PersonTotals.itemTotal t =
        sum ((fun b => (shareOf people b person).1.1) <$> bills) /\
      PersonTotals.taxShare t =
        sum ((fun b => (shareOf people b person).1.2) <$> bills) /\
      PersonTotals.serviceShare t =
        sum ((fun b => (shareOf people b person).2) <$> bills) /\
      PersonTotals.finalTotal t =
        sum ((fun b => chargeOf people b person) <$> bills))
      people totals.
Proof.
  intros Hnd. destruct (statsInv_bills people bills) as (m & Em & Hdom & _).
  unfold calculatePersonTotals. rewrite Em. cbn [mbind option_bind].
  apply mapM_Forall2. intros person Hp.
  destruct (fold_billStep people bills (initPersonTotals people) person zeroStats)
    as (m' & s' & E' & Hs' & H1 & H2 & H3 & H4); [done|done| | |].
  { intros k Hk. by rewrite initPersonTotals_lookup, bool_decide_eq_true_2. }
  { rewrite initPersonTotals_lookup, bool_decide_eq_true_2; [done|].
    by apply list_elem_of_fmap_2. }
  rewrite Em in E'. injection E' as <-.
  unfold mkTotals. rewrite Hs'. cbn [mbind option_bind]. eexists. split; [done|].
  cbn. rewrite H1, H2, H3, H4. cbn. repeat split; ring.
Qed.

(** X10.  With unique person ids, the item total, the tax share, the service
    share and the final total of each record are the sums, over the
    bills, of what the person gets for each bill. *)
Theorem totals_accumulate_over_bills people bills payments :
  NoDup (ids people) ->
  exists totals,
    calculatePersonTotals people bills payments = Some totals /\
    Forall2 (fun person t =>
      PersonTotals.itemTotal t =
        sum ((fun b => (shareOf people b person).1.1) <$> bills) /\
      PersonTotals.taxShare t =
        sum ((fun b => (shareOf people b person).1.2) <$> bills) /\
      PersonTotals.serviceShare t =
        sum ((fun b => (shareOf people b person).2) <$> bills) /\
      PersonTotals.finalTotal t =
        sum ((fun b => chargeOf people b person) <$> bills))
      people totals.
Proof. apply calculatePersonTotals_sums. Qed.

Lemma totals_accumulate_over_bills_witness :
  exists totals,
    calculatePersonTotals [alice; bob] [dinner; discounted] dinnerPayments
      = Some totals /\
    Forall2 (fun person t =>
      PersonTotals.itemTotal t =
        sum ((fun b => (shareOf [alice; bob] b person).1.1) <$> [dinner; discounted]) /\
      PersonTotals.taxShare t =
        sum ((fun b => (shareOf [alice; bob] b person).1.2) <$> [dinner; discounted]) /\
      PersonTotals.serviceShare t =
        sum ((fun b => (shareOf [alice; bob] b person).2) <$> [dinner; discounted]) /\
      PersonTotals.finalTotal t =
        sum ((fun b => chargeOf [alice; bob] b person) <$> [dinner; discounted]))
      [alice; bob] totals.
Proof.
  apply (totals_accumulate_over_bills [alice; bob] [dinner; discounted] dinnerPayments).
  compute_done.
Defined.






(** ** Tax and service, payments, the warning *)



Lemma assignedSubtotal_all bill :
  Forall (fun i => Item.sharedBy i ≠ []) (ReceiptData.items bill) ->
  assignedSubtotal bill = sum (Item.price <$> ReceiptData.items bill).
Proof.
  intros H. unfold assignedSubtotal. rewrite filter_all; [done|].
  by apply Forall_forall.
Qed.



(** *** The input fields and the delete button of an item *)

Lemma itemStep_unassigned st i : Item.sharedBy i = [] -> itemStep st i = st.
Proof. intros H. unfold itemStep. by rewrite H. Qed.

Lemma foldl_itemStep_filter (P : Item.t -> Prop) `{!forall i, Decision (P i)} st items :
  Forall (fun i => ~ P i -> Item.sharedBy i = []) items ->
  foldl itemStep st (filter P items) = foldl itemStep st items.
Proof.
  revert st. induction items as [|i items IH]; intros st Hun; [done|].
  apply Forall_cons in Hun as [Hi Hun]. rewrite filter_cons.
  destruct (decide (P i)) as [Hp|Hp]; cbn [foldl]; [by apply IH|].
  rewrite itemStep_unassigned by auto. by apply IH.
Qed.

Lemma foldl_itemStep_fmap (f : Item.t -> Item.t) st items :
  (forall i, Item.price (f i) = Item.price i /\ Item.sharedBy (f i) = Item.sharedBy i) ->
  foldl itemStep st (f <$> items) = foldl itemStep st items.
Proof.
  intros Hf. revert st. induction items as [|i items IH]; intros st; [done|].
  rewrite fmap_cons. cbn [foldl]. rewrite IH. f_equal.
  destruct (Hf i) as [Hp Hs]. unfold itemStep. by rewrite Hp, Hs.
Qed.

(** X13.  The name and the quantity of an item and the name of a bill are for
    display: setting them changes nobody's totals.  Neither does deleting
    an item that nobody shares. *)
Theorem display_edits_change_nothing cur people bills payments itemId :
  (forall val,
     calculatePersonTotals people (setItemQty cur bills itemId val) payments
     = calculatePersonTotals people bills payments) /\
  (forall value,
     calculatePersonTotals people (setItemName cur bills itemId value) payments
     = calculatePersonTotals people bills payments) /\
  (forall value,
     calculatePersonTotals people (setBillName cur bills value) payments
     = calculatePersonTotals people bills payments) /\
  (Forall (fun b => Forall (fun i => Item.id i = itemId -> Item.sharedBy i = [])
                           (ReceiptData.items b)) bills ->
   calculatePersonTotals people (removeItem cur bills itemId) payments
   = calculatePersonTotals people bills payments).
Proof.
  split; [|split; [|split]].
  - intros val. apply calculatePersonTotals_view, Forall2_fmap_diag.
    intros b _. destruct (isCurrent cur b); [|done]. split; [|done].
    unfold billItems. cbn [with_items ReceiptData.items].
    apply foldl_itemStep_fmap. intros i. by case_bool_decide.
  - intros value. apply calculatePersonTotals_view, Forall2_fmap_diag.
    intros b _. destruct (isCurrent cur b); [|done]. split; [|done].
    unfold billItems. cbn [with_items ReceiptData.items].
    apply foldl_itemStep_fmap. intros i. by case_bool_decide.
  - intros value. unfold setBillName. destruct (noCurrentBill cur); [done|].
    apply calculatePersonTotals_view, Forall2_fmap_diag.
    intros b _. by destruct (isCurrent cur b).
  - intros Hun. apply calculatePersonTotals_view.
    unfold removeItem. apply Forall2_fmap_r, Forall_Forall2_diag.
    eapply Forall_impl; [exact Hun|]. intros b Hb. unfold compose. lazy beta.
    destruct (isCurrent cur b); [|done]. split; [|done].
    unfold billItems. cbn [with_items ReceiptData.items].
    apply foldl_itemStep_filter. eapply Forall_impl; [exact Hb|]. cbn beta.
    intros i Hi Hne. apply Hi. by destruct (decide (Item.id i = itemId)).
Qed.

Lemma display_edits_change_nothing_witness :
  calculatePersonTotals [alice; bob; carol] (removeItem (Some "r0") [dinner; tea] "i0")
    dinnerPayments
  = calculatePersonTotals [alice; bob; carol] [dinner; tea] dinnerPayments.
Proof.
  apply (display_edits_change_nothing (Some "r0") [alice; bob; carol] [dinner; tea]
           dinnerPayments "i0").
  compute_done.
Defined.

(** *** Payments *)














(** *** The warning of the summary *)

Lemma foldl_add_nat {A} (f : A -> nat) l a :
  foldl (fun s x => (s + f x)%nat) a l = (a + foldl (fun s x => (s + f x)%nat) 0%nat l)%nat.
Proof.
  revert a. induction l as [|x l IH]; intros a; cbn [foldl]; [lia|].
  rewrite (IH (a + f x)%nat), (IH (0 + f x)%nat). lia.
Qed.

Lemma unassignedItemsCount_cons b bills :
  unassignedItemsCount (b :: bills) =
  (length (filter (fun i => length (Item.sharedBy i) = 0%nat) (ReceiptData.items b))
   + unassignedItemsCount bills)%nat.
Proof.
  unfold unassignedItemsCount. cbn [foldl].
  rewrite (foldl_add_nat
             (fun b => length (filter (fun i => length (Item.sharedBy i) = 0%nat)
                                      (ReceiptData.items b)))).
  lia.
Qed.

Lemma no_unassigned items :
  length (filter (fun i => length (Item.sharedBy i) = 0%nat) items) = 0%nat <->
  Forall (fun i => Item.sharedBy i <> []) items.
Proof.
  induction items as [|i items IH]; [done|].
  rewrite filter_cons, Forall_cons. destruct (decide _) as [Hi|Hi].
  - split; [done|]. intros [Hne _]. by apply length_zero_iff_nil in Hi.
  - rewrite IH. split; [|tauto]. intros H. split; [|done].
    intros E. apply Hi. by rewrite E.
Qed.

Lemma not_Exists_unassigned items :
  ~ Exists (fun i => length (Item.sharedBy i) = 0%nat) items <->
  Forall (fun i => Item.sharedBy i <> []) items.
Proof.
  rewrite <- Forall_Exists_neg. apply Forall_proper; [|done].
  intros i. by rewrite length_zero_iff_nil.
Qed.

Lemma unassignedItemsCount_zero bills :
  unassignedItemsCount bills = 0%nat <->
  Forall (fun b => Forall (fun i => Item.sharedBy i <> []) (ReceiptData.items b)) bills.
Proof.
  induction bills as [|b bills IH]; [done|].
  rewrite unassignedItemsCount_cons, Forall_cons, <- IH, <- no_unassigned. lia.
Qed.

Lemma billWithUnassigned_None bills :
  billWithUnassigned bills = None <->
  Forall (fun b => Forall (fun i => Item.sharedBy i <> []) (ReceiptData.items b)) bills.
Proof.
  unfold billWithUnassigned. rewrite fmap_None, list_find_None.
  apply Forall_proper; [|done]. intros b. apply not_Exists_unassigned.
Qed.

(** X16.  The summary counts the items that nobody shares.  The count is zero
    exactly when every item of every bill is shared by someone, and then
    the assigned subtotal of every bill is the sum of the prices of its
    items.  The warning is shown exactly when the button "Bagi Item
    Sekarang" finds a bill, and the bill found is the first of the list
    with an item that nobody shares. *)
Theorem unassigned_warning bills :
  (unassignedItemsCount bills = 0%nat <->
   Forall (fun b => Forall (fun i => Item.sharedBy i <> []) (ReceiptData.items b)) bills) /\
  (unassignedItemsCount bills = 0%nat ->
   Forall (fun b => assignedSubtotal b = sum (Item.price <$> ReceiptData.items b)) bills) /\
  ((0 < unassignedItemsCount bills)%nat <-> is_Some (billWithUnassigned bills)) /\
  (forall b, billWithUnassigned bills = Some b ->
     exists n, bills !! n = Some b /\
       Exists (fun i => Item.sharedBy i = []) (ReceiptData.items b) /\
       forall m b', bills !! m = Some b' -> (m < n)%nat ->
         Forall (fun i => Item.sharedBy i <> []) (ReceiptData.items b')).
Proof.
  split; [apply unassignedItemsCount_zero|]. split; [|split].
  - intros H%unassignedItemsCount_zero. eapply Forall_impl; [exact H|].
    intros b Hb. by apply assignedSubtotal_all.
  - pose proof (unassignedItemsCount_zero bills) as H0.
    pose proof (billWithUnassigned_None bills) as HN.
    destruct (billWithUnassigned bills) as [b|].
    + split; [by eexists|]. intros _.
      destruct (unassignedItemsCount bills); [|lia].
      apply proj1 in H0. apply proj2 in HN. by specialize (HN (H0 eq_refl)).
    + split; [|by intros [? ?]]. apply proj1 in HN. apply proj2 in H0.
      rewrite (H0 (HN eq_refl)). lia.
  - unfold billWithUnassigned. intros b ([n b0] & Hf & ->)%fmap_Some.
    apply list_find_Some in Hf as (Hn & Hex & Hfirst). exists n. split; [done|].
    split.
    + eapply Exists_impl; [exact Hex|]. intros i. apply length_zero_iff_nil.
    + intros m b' Hm Hlt. apply not_Exists_unassigned. by eapply Hfirst.
Qed.

Lemma unassigned_warning_witness :
  Forall (fun b => assignedSubtotal b = sum (Item.price <$> ReceiptData.items b))
         [dinner; discounted].
Proof.
  destruct (unassigned_warning [dinner; discounted]) as (_ & H & _).
  apply H. reflexivity.
Defined.

(** ** More on the settlement *)









(** *** Payments of a person who is removed *)


